(** * ec2cluster: role coordination and promotion

    A shallow embedding of [ec2cluster/base.py]: the role decision made from
    the master CNAME, the Route53 updates that claim the master CNAME and
    join the slave pool, and the promotion of a PostgreSQL read slave.

    The Python methods become functions in a reader/state/exception monad.
    What lies outside the repository (the DNS resolver, Route53, psycopg2,
    subprocess, the crontab, the file system) is an explicit environment. *)

From Stdlib Require Import String Ascii ZArith Bool List.
From stdpp Require Import base option list gmap strings.
Import ListNotations.

Local Open Scope string_scope.
Local Open Scope list_scope.
Local Open Scope Z_scope.

(** ** Python values and exceptions *)

(** The values a database cursor can hand back from [fetchone]: [None] when
    there is no row, a row as a tuple of column values, or, with a driver
    that returns text, a bare column value. *)
Inductive pyatom :=
  | PyBool (b : bool)
  | PyInt (z : Z)
  | PyStr (s : string).

Inductive pyval :=
  | PyNone
  | PyAtom (a : pyatom)
  | PyTuple (items : list pyatom).

(** [res == 't'] where the right operand is a string literal: only a string
    with the same characters is equal to it. *)
Definition py_eq_str (v : pyval) (s : string) : bool :=
  match v with
  | PyAtom (PyStr s') => String.eqb s' s
  | _ => false
  end.

(** The exception classes of [dns.resolver] that a query can raise. *)
Inductive dns_exception := NXDOMAIN | NoAnswer | Timeout | NoNameservers.

(** The exception classes of [psycopg2]. *)
Inductive pg_exception :=
  | OperationalError (msg : string)
  | ProgrammingError (msg : string)
  | InterfaceError (msg : string).

(** What the template formatting [template % data] can raise. *)
Inductive format_exception :=
  | KeyError (key : string)
  | ValueError (msg : string)
  | TypeError (msg : string).

Inductive exn :=
  | DnsException (e : dns_exception)
  | DNSServerError (error_message : string)
  | Psycopg2Error (e : pg_exception)
  | CalledProcessError (returncode : Z) (cmd : list string) (output : string)
  | OSError (msg : string)
  | IOError (filename : string)
  | FormatError (e : format_exception)
  | LookupKeyError (key : string)
  | IndexError
  | UnboundLocalError (name : string)
  | NotImplementedError
  | AttributeError (name : string)
  | Exception (msg : string).

Inductive result (A : Type) :=
  | Return (a : A)
  | Raise (e : exn).
Arguments Return {A} a.
Arguments Raise {A} e.

#[global] Instance dns_exception_eq_dec : EqDecision dns_exception.
Proof. solve_decision. Defined.

(** ** Strings as Python uses them here *)

(** [s.endswith(suffix)] *)
Definition endswith (s suffix : string) : bool :=
  let n := String.length s in
  let k := String.length suffix in
  if (k <=? n)%nat
  then String.eqb (String.substring (n - k) k s) suffix
  else false.

Definition is_whitespace (c : ascii) : bool :=
  let n := nat_of_ascii c in
  ((9 <=? n)%nat && (n <=? 13)%nat) || (n =? 32)%nat.

(** [s.split()]: the maximal runs of non-whitespace characters; [cur] is the
    run being read. *)
Fixpoint split_from (cur : string) (s : string) : list string :=
  match s with
  | EmptyString =>
      match cur with EmptyString => [] | _ => [cur] end
  | String c rest =>
      if is_whitespace c
      then match cur with
           | EmptyString => split_from EmptyString rest
           | _ => cur :: split_from EmptyString rest
           end
      else split_from (cur +:+ String c EmptyString) rest
  end.

Definition py_split (s : string) : list string := split_from EmptyString s.

(** Line feed, as in ['...\n'], and the double quote. *)
Definition LF : string := String (ascii_of_nat 10) EmptyString.
Definition DQ : string := String (ascii_of_nat 34) EmptyString.

(** ** The world outside the repository *)

(** A Route53 resource record set, as [ResourceRecordSets.add_change] builds
    it. *)
Record RRSet := {
  rr_name : string;
  rr_type : string;
  rr_ttl : Z;
  rr_weight : option string;
  rr_identifier : option string;
  rr_values : list string
}.

#[global] Instance RRSet_eq_dec : EqDecision RRSet.
Proof. solve_decision. Defined.

Inductive change_action := CREATE | DELETE.

(** The pending batch held by a [ResourceRecordSets] object. *)
Definition ChangeBatch := list (change_action * RRSet).

(** An entry of a user's crontab. *)
Record CronJob := {
  job_command : string;
  job_comment : string;
  job_slices : string
}.

(** An open [psycopg2] connection seen through one cursor: what [execute]
    does with a statement and what [fetchone] returns after it. *)
Record Connection := {
  cur_execute : string -> option pg_exception;
  cur_fetchone : string -> pyval
}.

(** A cursor remembers the statement it executed last. *)
Record Cursor := {
  cursor_conn : Connection;
  last_statement : option string
}.

Inductive process_outcome :=
  | Exited (returncode : Z) (output : string)
  | SpawnFailed (msg : string).

(** [ec2cluster.default_settings], imported as [settings]; the module is not
    among the sources, so its constants are fields of the environment. *)
Record Settings := {
  ROUTE53_ZONE_ID : string;
  MASTER_CNAME_TTL : Z;
  SLAVE_CNAME_TTL : Z;
  PG_USER : string;
  PG_CTL : string;
  PG_DIR : string;
  RECOVERY_FILENAME : string;
  RECOVERY_TEMPLATE_MASTER : string;
  RECOVERY_TEMPLATE_SLAVE : string
}.

(** How the collaborators answer. None of it is changed by the program. *)
Record Env := {
  settings : Settings;
  (** a resolver failure that hits every query, if any *)
  dns_fault : option dns_exception;
  (** a Route53 server error that rejects every commit, if any *)
  route53_fault : option string;
  (** [psycopg2.connect(conn_str)] *)
  pg_connect : string -> Connection + pg_exception;
  (** running a command line *)
  run_process : list string -> process_outcome;
  (** [open(path, 'r').read()] *)
  read_file : string -> option string;
  (** whether [open(path, 'w')] can open the file *)
  writable : string -> bool;
  (** [template % data] *)
  format_template : string -> gmap string string -> string + format_exception
}.

Inductive level := INFO | WARNING | CRITICAL.

(** Everything the program can change or emit. *)
Record State := {
  zone : list RRSet;
  crontab : list CronJob;
  files : list (string * string);
  log : list (level * string);
  stdout : list string;
  processes : list (list string);
  role : option string
}.

(** The attributes [__init__] gives an instance. *)
Record Self := {
  metadata : gmap string string;
  self_settings : gmap string string;
  master_cname : string;
  slave_cname : string
}.

Definition set_zone (z : list RRSet) (st : State) : State :=
  {| zone := z; crontab := crontab st; files := files st; log := log st;
     stdout := stdout st; processes := processes st; role := role st |}.
Definition set_crontab (c : list CronJob) (st : State) : State :=
  {| zone := zone st; crontab := c; files := files st; log := log st;
     stdout := stdout st; processes := processes st; role := role st |}.
Definition set_files (f : list (string * string)) (st : State) : State :=
  {| zone := zone st; crontab := crontab st; files := f; log := log st;
     stdout := stdout st; processes := processes st; role := role st |}.
Definition set_log (l : list (level * string)) (st : State) : State :=
  {| zone := zone st; crontab := crontab st; files := files st; log := l;
     stdout := stdout st; processes := processes st; role := role st |}.
Definition set_stdout (o : list string) (st : State) : State :=
  {| zone := zone st; crontab := crontab st; files := files st; log := log st;
     stdout := o; processes := processes st; role := role st |}.
Definition set_processes (p : list (list string)) (st : State) : State :=
  {| zone := zone st; crontab := crontab st; files := files st; log := log st;
     stdout := stdout st; processes := p; role := role st |}.
Definition set_role (r : option string) (st : State) : State :=
  {| zone := zone st; crontab := crontab st; files := files st; log := log st;
     stdout := stdout st; processes := processes st; role := r |}.

(** ** The monad *)

Definition M (A : Type) : Type := Env -> State -> result A * State.

#[global] Instance M_ret : MRet M := fun A a _ st => (Return a, st).
#[global] Instance M_bind : MBind M := fun A B f m env st =>
  match m env st with
  | (Return a, st') => f a env st'
  | (Raise e, st') => (Raise e, st')
  end.

Definition raise {A} (e : exn) : M A := fun _ st => (Raise e, st).
Definition ask : M Env := fun env st => (Return env, st).
Definition get_state : M State := fun _ st => (Return st, st).
Definition modify (f : State -> State) : M unit := fun _ st => (Return tt, f st).
Definition lift {A} (r : result A) : M A := fun _ st => (r, st).

(** [try: body / except ...: handler / else: orelse]. The handler says which
    exceptions it catches; what [orelse] raises is not caught. *)
Definition try_except_else {A B} (body : M A) (handler : exn -> option (M B))
    (orelse : A -> M B) : M B := fun env st =>
  match body env st with
  | (Return a, st') => orelse a env st'
  | (Raise e, st') =>
      match handler e with
      | Some h => h env st'
      | None => (Raise e, st')
      end
  end.

(** [try: body / except ...: handler] *)
Definition try_except {A} (body : M A) (handler : exn -> option (M A)) : M A :=
  try_except_else body handler mret.

Definition logger (lv : level) (msg : string) : M unit :=
  modify (fun st => set_log (log st ++ [(lv, msg)]) st).

Definition print (line : string) : M unit :=
  modify (fun st => set_stdout (stdout st ++ [line]) st).

(** ** The naming service

    Route53 and the resolver are not part of the repository. Their model
    follows the interface the repository relies on: a query fails with
    NXDOMAIN when the name is absent, a CREATE is rejected when a record set
    with the same name, type and set identifier is present, and a DELETE
    must name a record set exactly as it is stored. A batch is applied as a
    whole or not at all. *)

Definition same_key (r r' : RRSet) : bool :=
  bool_decide (rr_name r = rr_name r')
  && bool_decide (rr_type r = rr_type r')
  && bool_decide (rr_identifier r = rr_identifier r').

Definition describe (r : RRSet) : string :=
  "[name='" +:+ rr_name r +:+ "', type='" +:+ rr_type r +:+ "'"
  +:+ match rr_identifier r with
     | Some i => ", set-identifier='" +:+ i +:+ "'"
     | None => EmptyString
     end
  +:+ "]".

Definition apply_change (z : list RRSet) (c : change_action * RRSet)
    : list RRSet + string :=
  match c with
  | (CREATE, r) =>
      if existsb (same_key r) z
      then inr ("Tried to create resource record set " +:+ describe r
                +:+ " but it already exists")
      else inl (z ++ [r])
  | (DELETE, r) =>
      match List.find (same_key r) z with
      | None =>
          inr ("Tried to delete resource record set " +:+ describe r
               +:+ " but it was not found")
      | Some r' =>
          if bool_decide (r' = r)
          then inl (List.filter (fun x => negb (bool_decide (x = r))) z)
          else inr ("Tried to delete resource record set " +:+ describe r
                    +:+ " but the values provided do not match the current values")
      end
  end.

Fixpoint apply_changes (z : list RRSet) (cs : ChangeBatch) : list RRSet + string :=
  match cs with
  | [] => inl z
  | c :: cs' =>
      match apply_change z c with
      | inl z' => apply_changes z' cs'
      | inr msg => inr msg
      end
  end.

Definition records_named (name : string) (z : list RRSet) : list RRSet :=
  List.filter (fun r => bool_decide (rr_name r = name)) z.

(** [dns.resolver.query(name, rdtype)], answered from the zone: the items of
    the answer are the values of the record sets of that name and type, as
    stored; the code renders an item with [to_text]. A name without any
    record is NXDOMAIN; a name with records, none of them of the type, is
    NoAnswer. *)
Definition resolve (z : list RRSet) (name rdtype : string) : result (list string) :=
  match records_named name z with
  | [] => Raise (DnsException NXDOMAIN)
  | rs =>
      match List.concat (List.map rr_values
              (List.filter (fun r => bool_decide (rr_type r = rdtype)) rs)) with
      | [] => Raise (DnsException NoAnswer)
      | items => Return items
      end
  end.

Definition dns_resolver_query (name rdtype : string) : M (list string) :=
  fun env st =>
    match dns_fault env with
    | Some e => (Raise (DnsException e), st)
    | None => (resolve (zone st) name rdtype, st)
    end.

(** [changes.add_change(action, name, type, ttl, weight, identifier)]: the new
    record is appended to the batch and stays reachable, here by its index,
    for the [add_value] that follows. *)
Definition add_change (changes : ChangeBatch) (action : change_action)
    (name type : string) (ttl : Z) (weight identifier : option string)
    : ChangeBatch * nat :=
  (changes ++ [(action,
                {| rr_name := name; rr_type := type; rr_ttl := ttl;
                   rr_weight := weight; rr_identifier := identifier;
                   rr_values := [] |})],
   length changes).

(** [record.add_value(value)] *)
Definition add_value (changes : ChangeBatch) (record : nat) (value : string)
    : ChangeBatch :=
  alter (fun c =>
           (c.1, {| rr_name := rr_name c.2; rr_type := rr_type c.2;
                    rr_ttl := rr_ttl c.2; rr_weight := rr_weight c.2;
                    rr_identifier := rr_identifier c.2;
                    rr_values := rr_values c.2 ++ [value] |}))
        record changes.

(** [changes.commit()] *)
Definition commit (changes : ChangeBatch) : M unit := fun env st =>
  match route53_fault env with
  | Some msg => (Raise (DNSServerError msg), st)
  | None =>
      match apply_changes (zone st) changes with
      | inl z' => (Return tt, set_zone z' st)
      | inr msg => (Raise (DNSServerError msg), st)
      end
  end.

(** [d[key]] on a dict *)
Definition getitem (d : gmap string string) (key : string) : M string :=
  match d !! key with
  | Some v => mret v
  | None => raise (LookupKeyError key)
  end.

(** [items[0]] *)
Definition first_item (items : list string) : M string :=
  match items with
  | v :: _ => mret v
  | [] => raise IndexError
  end.

(** [rdata.to_text()] on a CNAME of an answer: the target as an absolute
    name, which is written with a dot at the end. *)
Definition to_text (target : string) : string :=
  if endswith target "." then target else target +:+ ".".

(** ** How a cluster class is put together

    [get_cluster_class] builds a class from an infrastructure class and a
    service class, and [PostgresqlCluster] lists [EC2Mixin] among its bases.
    The two records are the methods each side supplies, as the method
    resolution order finds them on an instance: [self_m] stands for the
    attribute lookup [self.m]. *)

Class Infrastructure := {
  self_acquire_master_cname : Self -> M unit;
  self_release_master_cname : Self -> M unit;
  (** [None] on a class that has no such attribute *)
  self_add_to_slave_cname_pool : option (Self -> M unit)
}.

Class Service := {
  self_prepare_master : Self -> M unit;
  self_prepare_slave : Self -> M unit;
  self_poll_process : Self -> M unit;
  self_start_process : Self -> M unit
}.

(** ** class EC2Mixin *)

Module EC2Mixin.

(** [boto.connect_route53] only builds the connection object. *)
Definition _get_route53_conn : M unit := mret tt.

Definition acquire_master_cname (self : Self) (force : bool) : M unit :=
  '(master_cname_exists, old_cname_value) ←
    try_except_else (dns_resolver_query (master_cname self) "CNAME")
      (fun e => match e with
                | DnsException NXDOMAIN => Some (
                    logger INFO (master_cname self +:+ " does not exist, so creating it");;
                    mret (false, None))
                | _ => None
                end)
      (fun answers =>
         rdata ← first_item answers;
         let old_cname_value := to_text rdata in
         logger INFO (master_cname self +:+ " already exists, so updating it");;
         mret (true, Some old_cname_value));
  if master_cname_exists && negb force then
    logger CRITICAL ("CNAME " +:+ master_cname self +:+ " exists and force is false - exiting");;
    raise (Exception ("CNAME " +:+ master_cname self
                      +:+ " exists and force is False - not taking the CNAME"))
  else
    env ← ask;
    route53_conn ← _get_route53_conn;
    let changes : ChangeBatch := [] in
    changes ← (if master_cname_exists then
                 logger INFO ("Deleting existing record for " +:+ master_cname self);;
                 let '(changes, del_record) :=
                   add_change changes DELETE (master_cname self) "CNAME"
                     (MASTER_CNAME_TTL (settings env)) None None in
                 match old_cname_value with
                 | Some v => mret (add_value changes del_record v)
                 | None => raise (UnboundLocalError "old_cname_value")
                 end
               else mret changes);
    logger INFO ("Creating record for " +:+ master_cname self);;
    let '(changes, add_record) :=
      add_change changes CREATE (master_cname self) "CNAME"
        (MASTER_CNAME_TTL (settings env)) None None in
    hostname ← getitem (metadata self) "public-hostname";
    let changes := add_value changes add_record hostname in
    commit changes;;
    logger INFO "Finished updating DNS records".

Definition add_to_slave_cname_pool (self : Self) : M unit :=
  env ← ask;
  route53_conn ← _get_route53_conn;
  let changes : ChangeBatch := [] in
  instance_id ← getitem (metadata self) "instance-id";
  logger INFO ("Adding " +:+ instance_id +:+ " to CNAME pool for " +:+ slave_cname self);;
  identifier ← getitem (metadata self) "instance-id";
  let '(changes, add_record) :=
    add_change changes CREATE (slave_cname self) "CNAME"
      (SLAVE_CNAME_TTL (settings env)) (Some "10") (Some identifier) in
  hostname ← getitem (metadata self) "public-hostname";
  let changes := add_value changes add_record hostname in
  try_except (commit changes)
    (fun e => match e with
              | DNSServerError error_message => Some (
                  if endswith error_message "it already exists"
                  then logger WARNING
                         "Attempted to create a CNAME, but one already exists for this instance"
                  else raise e)
              | _ => None
              end);;
  logger INFO "Finished updating DNS records".

End EC2Mixin.

(** ** subprocess *)

(** Every command line handed to [subprocess] is recorded in [processes],
    whether or not the program could be started. *)

(** [subprocess.check_call(cmd)] *)
Definition check_call (cmd : list string) : M unit := fun env st =>
  let st' := set_processes (processes st ++ [cmd]) st in
  match run_process env cmd with
  | Exited 0 _ => (Return tt, st')
  | Exited returncode _ => (Raise (CalledProcessError returncode cmd EmptyString), st')
  | SpawnFailed msg => (Raise (OSError msg), st')
  end.

(** [subprocess.check_output(cmd, stderr=subprocess.STDOUT)] *)
Definition check_output (cmd : list string) : M string := fun env st =>
  let st' := set_processes (processes st ++ [cmd]) st in
  match run_process env cmd with
  | Exited 0 output => (Return output, st')
  | Exited returncode output => (Raise (CalledProcessError returncode cmd output), st')
  | SpawnFailed msg => (Raise (OSError msg), st')
  end.

(** ** class BaseCluster *)

Module BaseCluster.

Definition MASTER : string := "master".
Definition SLAVE : string := "slave".
Definition POLL_TIMEOUT : Z := 60.

Definition get_roles `{Service} : gmap string (Self -> M unit) :=
  <[SLAVE := self_prepare_slave]> (<[MASTER := self_prepare_master]> ∅).

Definition determine_role (self : Self) : M string :=
  logger INFO "Attempting to determine role";;
  try_except_else (dns_resolver_query (master_cname self) "CNAME")
    (fun e => match e with
              | DnsException NXDOMAIN => Some (
                  logger INFO "Master CNAME does not exist, assuming master role";;
                  mret MASTER)
              | _ => None
              end)
    (fun _ =>
       logger INFO "Master CNAME already exists, assuming slave role";;
       mret SLAVE).

Definition initialise `{Service} (self : Self) : M unit :=
  r ← determine_role self;
  modify (set_role (Some r));;
  match get_roles !! r with
  | Some handler => handler self
  | None =>
      logger CRITICAL ("Unknown role: " +:+ r);;
      raise (Exception ("Unrecognised role: " +:+ r))
  end;;
  self_start_process self;;
  self_poll_process self.

Definition prepare_master (self : Self) : M unit := raise NotImplementedError.
Definition prepare_slave (self : Self) : M unit := raise NotImplementedError.
Definition acquire_master_cname (self : Self) : M unit := raise NotImplementedError.
Definition release_master_cname (self : Self) : M unit := raise NotImplementedError.
Definition poll_process (self : Self) : M unit := raise NotImplementedError.
Definition start_process (self : Self) : M unit := raise NotImplementedError.

Definition process_started `{Infrastructure} (self : Self) : M unit :=
  st ← get_state;
  match role st with
  | None => raise (AttributeError "role")
  | Some r =>
      if String.eqb r MASTER then self_acquire_master_cname self
      else if String.eqb r SLAVE then
        match self_add_to_slave_cname_pool with
        | Some f => f self
        | None => raise (AttributeError "add_to_slave_cname_pool")
        end
      else mret tt
  end.

Definition process_failed (self : Self) : M unit :=
  print "oh shit something broke".

(** The class on its own: every hook raises [NotImplementedError]. *)
Definition infrastructure : Infrastructure := {|
  self_acquire_master_cname := acquire_master_cname;
  self_release_master_cname := release_master_cname;
  self_add_to_slave_cname_pool := None
|}.

Definition service : Service := {|
  self_prepare_master := prepare_master;
  self_prepare_slave := prepare_slave;
  self_poll_process := poll_process;
  self_start_process := start_process
|}.

End BaseCluster.

(** ** class ScriptCluster(BaseCluster) *)

Module ScriptCluster.

Definition SERVICE_NAME : string := "testservice".
Definition MASTER_SCRIPT : string := "/tmp/master.py".
Definition SLAVE_SCRIPT : string := "/tmp/slave.py".

Definition start_process (self : Self) : M unit :=
  check_call ["/etc/init.d/" +:+ SERVICE_NAME; "start"].

Definition prepare_master (self : Self) : M unit :=
  check_call [MASTER_SCRIPT].

Definition prepare_slave (self : Self) : M unit :=
  check_call [SLAVE_SCRIPT].

Definition poll_process `{Infrastructure} (self : Self) : M unit :=
  BaseCluster.process_started self.

Definition service `{Infrastructure} : Service := {|
  self_prepare_master := prepare_master;
  self_prepare_slave := prepare_slave;
  self_poll_process := poll_process;
  self_start_process := start_process
|}.

End ScriptCluster.

(** ** class PostgresqlCluster(EC2Mixin, BaseCluster) *)

Module PostgresqlCluster.

(** [_get_conn]: an argument that is [None] or empty is left out of the
    connection string. *)
Definition _get_conn (host dbname user : option string) : M Connection :=
  let conn_str := EmptyString in
  let conn_str := match host with
                  | Some (String _ _ as h) => conn_str +:+ "host=" +:+ h +:+ " "
                  | _ => conn_str
                  end in
  let conn_str := match dbname with
                  | Some (String _ _ as d) => conn_str +:+ "dbname=" +:+ d +:+ " "
                  | _ => conn_str
                  end in
  let conn_str := match user with
                  | Some (String _ _ as u) => conn_str +:+ "user=" +:+ u +:+ " "
                  | _ => conn_str
                  end in
  env ← ask;
  match pg_connect env conn_str with
  | inl conn => mret conn
  | inr e => raise (Psycopg2Error e)
  end.

(** [conn.cursor()], [cur.execute(statement)], [cur.fetchone()] *)
Definition cursor (conn : Connection) : Cursor :=
  {| cursor_conn := conn; last_statement := None |}.

Definition execute (cur : Cursor) (statement : string) : M Cursor :=
  match cur_execute (cursor_conn cur) statement with
  | Some e => raise (Psycopg2Error e)
  | None => mret {| cursor_conn := cursor_conn cur; last_statement := Some statement |}
  end.

Definition fetchone (cur : Cursor) : M pyval :=
  match last_statement cur with
  | Some statement => mret (cur_fetchone (cursor_conn cur) statement)
  | None => raise (Psycopg2Error (ProgrammingError "no results to fetch"))
  end.

Definition start_process (self : Self) : M unit :=
  check_call ["/etc/init.d/postgresql"; "start"].

Definition poll_process (self : Self) : M unit := mret tt.

(** [open(path, 'w')] empties the file, or raises [IOError] when the file
    cannot be opened; [write] then fills it. *)
Definition write_file (path content : string) (fs : list (string * string))
    : list (string * string) :=
  (path, content) :: List.filter (fun f => negb (String.eqb f.1 path)) fs.

Definition write_recovery_conf (self : Self) (template_path : string) : M unit :=
  logger INFO ("Writing recovery file using template " +:+ template_path);;
  env ← ask;
  (* dict(metadata.items() + settings.items()): the later items win *)
  let data : gmap string string := self_settings self ∪ metadata self in
  let data := <["master_cname" := master_cname self]> data in
  template ← match read_file env template_path with
             | Some t => mret t
             | None => raise (IOError template_path)
             end;
  (if writable env (RECOVERY_FILENAME (settings env))
   then modify (fun st => set_files
                  (write_file (RECOVERY_FILENAME (settings env)) EmptyString (files st)) st)
   else raise (IOError (RECOVERY_FILENAME (settings env))));;
  text ← match format_template env template data with
         | inl t => mret t
         | inr e => raise (FormatError e)
         end;
  modify (fun st => set_files (write_file (RECOVERY_FILENAME (settings env)) text (files st)) st).

Definition configure_cron_backup (self : Self) : M unit :=
  let backup_cmd := "PATH=/usr/local/bin:/usr/sbin snaptastic make-snapshots postgresql" in
  st ← get_state;
  let cron := crontab st in
  if existsb (fun job => String.eqb (job_command job) backup_cmd) cron then
    logger WARNING "The backup cron job already exists - skipping"
  else
    let backup_job := {| job_command := backup_cmd;
                         job_comment := "Created by ec2cluster";
                         job_slices := "* */8 * * *" |} in
    logger INFO ("Adding entry to postgres users crontab - " +:+ backup_cmd);;
    modify (set_crontab (cron ++ [backup_job])).

Definition prepare_master (self : Self) : M unit :=
  EC2Mixin.acquire_master_cname self false;;
  env ← ask;
  write_recovery_conf self (RECOVERY_TEMPLATE_MASTER (settings env));;
  configure_cron_backup self.

Definition prepare_slave (self : Self) : M unit :=
  env ← ask;
  write_recovery_conf self (RECOVERY_TEMPLATE_SLAVE (settings env));;
  logger INFO "Instance configured as a slave";;
  EC2Mixin.add_to_slave_cname_pool self.

Definition is_OperationalError (e : exn) : bool :=
  match e with
  | Psycopg2Error (OperationalError _) => true
  | _ => false
  end.

Definition check_master (self : Self) : M bool :=
  logger INFO ("Checking master DB at " +:+ master_cname self);;
  connected ← try_except
    (conn ← _get_conn (Some (master_cname self)) None None; mret (Some conn))
    (fun e => if is_OperationalError e
              then Some (logger INFO "Connecting to master failed";; mret None)
              else None);
  match connected with
  | None => mret false
  | Some conn =>
      let cur := cursor conn in
      cur ← execute cur "SELECT pg_is_in_recovery()";
      res ← fetchone cur;
      if py_eq_str res "t" then mret false
      else
        cur ← execute cur "SELECT 1";
        res ← fetchone cur;
        if py_eq_str res "1" then mret true
        else mret false
  end.

Definition check_slave (self : Self) : M bool :=
  logger INFO "Checking slave DB on localhost";;
  conn ← _get_conn None None None;
  let cur := cursor conn in
  cur ← execute cur "SELECT pg_is_in_recovery()";
  res ← fetchone cur;
  mret (py_eq_str res "t").

Definition promote (self : Self) (force : bool) : M unit :=
  active_master ← try_except (check_master self)
    (fun e => if is_OperationalError e
              then Some (print "Could not connect to master";; mret false)
              else None);
  let proceed : M unit :=
    env ← ask;
    let promote_cmd := PG_CTL (settings env) +:+ " -D " +:+ PG_DIR (settings env) +:+ " promote" in
    print ("Running promote command: " +:+ promote_cmd);;
    try_except (check_output (py_split promote_cmd);; mret tt)
      (fun e => match e with
                | CalledProcessError _ _ output => Some (
                    if endswith output ("server is not in standby mode" +:+ LF) then
                      logger CRITICAL "This server is not in standby mode, so can not be promoted";;
                      raise (Exception output)
                    else
                      print output;;
                      raise e)
                | _ => None
                end);;
    configure_cron_backup self in
  if (active_master : bool) then
    print ("There is an active server at " +:+ master_cname self);;
    if negb force then
      print ("Refusing to promote slave without " +:+ DQ +:+ "force" +:+ DQ +:+ ", exiting.")
    else proceed
  else proceed.

(** What an instance inherits from [EC2Mixin] and, behind it, [BaseCluster]. *)
Definition infrastructure : Infrastructure := {|
  self_acquire_master_cname := fun self => EC2Mixin.acquire_master_cname self false;
  self_release_master_cname := BaseCluster.release_master_cname;
  self_add_to_slave_cname_pool := Some EC2Mixin.add_to_slave_cname_pool
|}.

Definition service : Service := {|
  self_prepare_master := prepare_master;
  self_prepare_slave := prepare_slave;
  self_poll_process := poll_process;
  self_start_process := start_process
|}.

End PostgresqlCluster.

(** ** The classes and their method resolution

    Every class of [base.py] derives from [object], so attribute lookup on
    an instance follows the C3 linearisation of its class. [className] is
    the class [get_cluster_class] creates with [type]. *)

Module Classes.

Inductive class :=
  | object
  | EC2Mixin
  | VagrantMixin
  | BaseCluster
  | ScriptCluster
  | PostgresqlCluster
  | className (serviceClass infrastructureClass : class).

#[global] Instance class_eq_dec : EqDecision class.
Proof. solve_decision. Defined.

(** The bases in the order of the class statement. *)
Definition bases (c : class) : list class :=
  match c with
  | object => []
  | EC2Mixin => [object]
  | VagrantMixin => [object]
  | BaseCluster => [object]
  | ScriptCluster => [BaseCluster]
  | PostgresqlCluster => [EC2Mixin; BaseCluster]
  | className serviceClass infrastructureClass => [serviceClass; infrastructureClass]
  end.

(** The names a class body binds itself; of what [object] defines, the one
    name the file uses as well. *)
Definition attributes (c : class) : list string :=
  match c with
  | object => ["__init__"]
  | EC2Mixin =>
      ["get_metadata"; "_get_route53_conn"; "acquire_master_cname";
       "add_to_slave_cname_pool"]
  | VagrantMixin => ["get_metadata"]
  | BaseCluster =>
      ["MASTER"; "SLAVE"; "POLL_TIMEOUT"; "get_metadata"; "__init__"; "get_roles";
       "initialise"; "get_master_cname"; "get_slave_cname"; "determine_role";
       "prepare_master"; "prepare_slave"; "acquire_master_cname";
       "release_master_cname"; "poll_process"; "start_process"; "process_started";
       "process_failed"]
  | ScriptCluster => ["start_process"; "prepare_master"; "prepare_slave"; "poll_process"]
  | PostgresqlCluster =>
      ["_get_conn"; "start_process"; "poll_process"; "write_recovery_conf";
       "configure_cron_backup"; "prepare_master"; "prepare_slave"; "check_master";
       "check_slave"; "promote"]
  | className _ _ => []
  end.

Definition has_attribute (c : class) (name : string) : bool :=
  existsb (String.eqb name) (attributes c).

(** A head is good when it is in the tail of none of the sequences. *)
Definition good_head (seqs : list (list class)) (h : class) : bool :=
  forallb (fun s => negb (existsb (fun x => bool_decide (x = h)) (tail s))) seqs.

Fixpoint first_good_head (seqs candidates : list (list class)) : option class :=
  match candidates with
  | [] => None
  | [] :: rest => first_good_head seqs rest
  | (h :: _) :: rest => if good_head seqs h then Some h else first_good_head seqs rest
  end.

Definition drop_head (h : class) (s : list class) : list class :=
  match s with
  | x :: t => if bool_decide (x = h) then t else s
  | [] => []
  end.

(** The merge of C3; [None] is the TypeError for an inconsistent order. *)
Fixpoint merge (fuel : nat) (seqs : list (list class)) : option (list class) :=
  match List.filter (fun s => negb (bool_decide (s = []))) seqs with
  | [] => Some []
  | live =>
      match fuel with
      | O => None
      | S fuel' =>
          match first_good_head live live with
          | None => None
          | Some h =>
              match merge fuel' (List.map (drop_head h) live) with
              | Some rest => Some (h :: rest)
              | None => None
              end
          end
      end
  end.

Fixpoint height (c : class) : nat :=
  match c with
  | className serviceClass infrastructureClass =>
      S (Nat.max (height serviceClass) (height infrastructureClass))
  | _ => 3%nat
  end.

Fixpoint linearise (fuel : nat) (c : class) : option (list class) :=
  match fuel with
  | O => None
  | S fuel' =>
      match mapM (linearise fuel') (bases c) with
      | None => None
      | Some parents =>
          let seqs := parents ++ [bases c] in
          match merge (length (List.concat seqs)) seqs with
          | Some rest => Some (c :: rest)
          | None => None
          end
      end
  end.

(** [c.__mro__] *)
Definition mro (c : class) : option (list class) := linearise (height c) c.

(** The class in which the lookup of [name] on an instance of [c] ends. *)
Definition find_attribute (c : class) (name : string) : option class :=
  match mro c with
  | Some order => List.find (fun k => has_attribute k name) order
  | None => None
  end.

(** [get_cluster_class]: [type('className', (serviceClass, infrastructureClass), {})] *)
Definition get_cluster_class (infrastructureClass serviceClass : class) : class :=
  className serviceClass infrastructureClass.

End Classes.

(** ** class VagrantMixin *)

Module VagrantMixin.

(** [get_metadata]: [data] is [os.environ] itself, so the three assignments
    change the environment of the process as well. The result is the mapping
    returned and the environment afterwards. *)
Definition get_metadata (environ : gmap string string)
    : gmap string string * gmap string string :=
  let data := environ in
  let data := <["cluster" := "vagranttest"]> data in
  let data := <["public-hostname" := "instance12346.vagranttest.example.com"]> data in
  let data := <["instance-id" := "i-12346"]> data in
  (data, data).

End VagrantMixin.

(** ** fabfile.py

    [local] runs a shell command on this machine and aborts the task when the
    command fails. A run is described by the commands that succeed; it yields
    the commands handed to [local], in order, and [None] when the task was
    aborted. *)

Module Fabfile.

Definition Fab (A : Type) : Type :=
  (string -> bool) -> list string -> option A * list string.

#[global] Instance Fab_ret : MRet Fab := fun A a _ trace => (Some a, trace).
#[global] Instance Fab_bind : MBind Fab := fun A B f m ok trace =>
  match m ok trace with
  | (Some a, trace') => f a ok trace'
  | (None, trace') => (None, trace')
  end.

Definition local (command : string) : Fab unit := fun ok trace =>
  (if ok command then Some tt else None, trace ++ [command]).

(** [with cd(PROJECT_ROOT)] sets the directory of remote commands only; the
    three commands are handed to [local] as they are written. *)
Definition validate : Fab unit :=
  local "pep8 --exclude=migrations --ignore=E501,E225 ec2cluster";;
  local "pyflakes ec2cluster";;
  local "python -m unittest ec2cluster.tests".

(** [version] is [ec2cluster.__version__], which is not among the sources. *)
Definition publish (version : string) (run_tests : bool) : Fab unit :=
  (if run_tests then validate else mret tt);;
  local "git push";;
  let tag_name := "v" +:+ version in
  local "python setup.py sdist upload";;
  local ("git tag " +:+ tag_name);;
  local "git push origin --tags".

Definition clean : Fab unit :=
  local ("bash -c " +:+ DQ +:+ "autopep8 -i *.py" +:+ DQ);;
  local ("bash -c " +:+ DQ +:+ "autopep8 -i ec2cluster/*.py" +:+ DQ);;
  local ("bash -c " +:+ DQ +:+ "autopep8 -i ec2cluster/utils/*.py" +:+ DQ).

End Fabfile.

(** ** A concrete cluster

    The instance the Vagrant mixin describes, a zone with and without a
    master record, and collaborators that answer without faults. *)

Module Sample.

Definition the_settings : Settings := {|
  ROUTE53_ZONE_ID := "Z3EXAMPLE";
  MASTER_CNAME_TTL := 60;
  SLAVE_CNAME_TTL := 60;
  PG_USER := "postgres";
  PG_CTL := "/usr/lib/postgresql/9.1/bin/pg_ctl";
  PG_DIR := "/var/lib/postgresql/9.1/main";
  RECOVERY_FILENAME := "/var/lib/postgresql/9.1/main/recovery.conf";
  RECOVERY_TEMPLATE_MASTER := "/etc/ec2cluster/recovery-master.template";
  RECOVERY_TEMPLATE_SLAVE := "/etc/ec2cluster/recovery-slave.template"
|}.

Definition self : Self := {|
  metadata := <["cluster" := "vagranttest"]>
                (<["public-hostname" := "instance12346.vagranttest.example.com"]>
                   (<["instance-id" := "i-12346"]> ∅));
  self_settings := ∅;
  master_cname := "master.vagranttest.example.com";
  slave_cname := "slave.vagranttest.example.com"
|}.

Definition master_record (target : string) : RRSet := {|
  rr_name := "master.vagranttest.example.com";
  rr_type := "CNAME";
  rr_ttl := 60;
  rr_weight := None;
  rr_identifier := None;
  rr_values := [target]
|}.

Definition pool_record (identifier target : string) : RRSet := {|
  rr_name := "slave.vagranttest.example.com";
  rr_type := "CNAME";
  rr_ttl := 60;
  rr_weight := Some "10";
  rr_identifier := Some identifier;
  rr_values := [target]
|}.

Definition state_with (z : list RRSet) : State := {|
  zone := z; crontab := []; files := []; log := []; stdout := [];
  processes := []; role := None
|}.

(** A server that answers in text: ['f'] for a master, ['t'] for a slave. *)
Definition text_server (in_recovery : bool) : Connection := {|
  cur_execute := fun _ => None;
  cur_fetchone := fun statement =>
    if String.eqb statement "SELECT pg_is_in_recovery()"
    then PyAtom (PyStr (if in_recovery then "t" else "f"))
    else PyAtom (PyStr "1")
|}.

(** A server whose rows are tuples, as psycopg2 returns them. *)
Definition tuple_server (in_recovery : bool) : Connection := {|
  cur_execute := fun _ => None;
  cur_fetchone := fun statement =>
    if String.eqb statement "SELECT pg_is_in_recovery()"
    then PyTuple [PyBool in_recovery]
    else PyTuple [PyInt 1]
|}.

Definition env_with (connect : string -> Connection + pg_exception)
    (run : list string -> process_outcome) : Env := {|
  settings := the_settings;
  dns_fault := None;
  route53_fault := None;
  pg_connect := connect;
  run_process := run;
  read_file := fun _ => Some "standby_mode = 'on'";
  writable := fun _ => true;
  format_template := fun template _ => inl template
|}.

Definition unreachable : string -> Connection + pg_exception :=
  fun _ => inr (OperationalError "could not connect to server").

Definition succeeds : list string -> process_outcome :=
  fun _ => Exited 0 "server promoting".

Definition not_standby : list string -> process_outcome :=
  fun _ => Exited 1 ("pg_ctl: cannot promote server; server is not in standby mode" +:+ LF).

Definition env : Env := env_with unreachable succeeds.

End Sample.

(** ** Runs on the sample cluster *)

Example py_split_runs_of_whitespace :
  py_split "  /usr/bin/pg_ctl -D   /data promote " = ["/usr/bin/pg_ctl"; "-D"; "/data"; "promote"].
Proof. reflexivity. Qed.

Example endswith_suffix :
  endswith ("pg_ctl: server is not in standby mode" +:+ LF)
           ("server is not in standby mode" +:+ LF) = true
  /\ endswith "server is not in standby mode" ("server is not in standby mode" +:+ LF) = false
  /\ endswith "mode" "standby mode" = false.
Proof. vm_compute. repeat split. Qed.

(** A first node finds no master record, takes the master role and claims
    the name; a second node then finds the record and joins the pool. *)
Example bootstrap_two_nodes :
  let node_b : Self := {|
    metadata := <["public-hostname" := "ec2-2.example.com"]>
                  (<["instance-id" := "i-2"]> ∅);
    self_settings := ∅;
    master_cname := master_cname Sample.self;
    slave_cname := slave_cname Sample.self |} in
  let s0 := Sample.state_with [] in
  let a_role := BaseCluster.determine_role Sample.self Sample.env s0 in
  let a_claim := EC2Mixin.acquire_master_cname Sample.self false Sample.env a_role.2 in
  let b_role := BaseCluster.determine_role node_b Sample.env a_claim.2 in
  let b_join := EC2Mixin.add_to_slave_cname_pool node_b Sample.env b_role.2 in
  a_role.1 = Return "master" /\ a_claim.1 = Return tt
  /\ b_role.1 = Return "slave" /\ b_join.1 = Return tt
  /\ zone b_join.2
     = [Sample.master_record "instance12346.vagranttest.example.com";
        Sample.pool_record "i-2" "ec2-2.example.com"].
Proof. vm_compute. repeat split. Qed.

(** * Vocabulary of the statements *)

(** A PrimaryBinding of the zone: a CNAME record set of that name that
    carries a value. *)
Definition binding_exists (name : string) (z : list RRSet) : Prop :=
  exists r, In r z /\ rr_name r = name /\ rr_type r = "CNAME" /\ rr_values r <> [].

(** The record set [acquire_master_cname] writes for a target. *)
Definition primary_binding (self : Self) (env : Env) (target : string) : RRSet :=
  {| rr_name := master_cname self; rr_type := "CNAME";
     rr_ttl := MASTER_CNAME_TTL (settings env);
     rr_weight := None; rr_identifier := None; rr_values := [target] |}.

(** The weighted record set [add_to_slave_cname_pool] creates. *)
Definition pool_entry (self : Self) (env : Env) (identifier target : string) : RRSet :=
  {| rr_name := slave_cname self; rr_type := "CNAME";
     rr_ttl := SLAVE_CNAME_TTL (settings env);
     rr_weight := Some "10"; rr_identifier := Some identifier;
     rr_values := [target] |}.

(** The two lines [promote] prints when it refuses. *)
Definition refusal (self : Self) : list string :=
  ["There is an active server at " +:+ master_cname self;
   "Refusing to promote slave without " +:+ DQ +:+ "force" +:+ DQ +:+ ", exiting."].

(** The command line [promote] runs. *)
Definition promote_cmd (env : Env) : string :=
  PG_CTL (settings env) +:+ " -D " +:+ PG_DIR (settings env) +:+ " promote".

(** The exception of the [else] branch of [initialise]. *)
Definition unrecognised (e : exn) : Prop :=
  exists r, e = Exception ("Unrecognised role: " +:+ r).

(** A computation that never ends in that exception. *)
Definition recognises {A} (m : M A) : Prop :=
  forall env st a, (m env st).1 = Raise a -> ~ unrecognised a.

(** A connection whose [fetchone] never hands back a bare string: rows are
    tuples, or [None] when there is none. *)
Definition rows_are_tuples (conn : Connection) : Prop :=
  forall statement s, cur_fetchone conn statement <> PyAtom (PyStr s).

(** The cron job [configure_cron_backup] adds. *)
Definition backup_cmd : string :=
  "PATH=/usr/local/bin:/usr/sbin snaptastic make-snapshots postgresql".

Definition backup_job : CronJob :=
  {| job_command := backup_cmd; job_comment := "Created by ec2cluster";
     job_slices := "* */8 * * *" |}.

Definition has_backup_job (cron : list CronJob) : bool :=
  existsb (fun job => String.eqb (job_command job) backup_cmd) cron.

(** What a path holds in the file system of the state. *)
Definition file_content (path : string) (fs : list (string * string)) : option string :=
  match List.find (fun f => String.eqb f.1 path) fs with
  | Some f => Some f.2
  | None => None
  end.

(** The mapping [write_recovery_conf] formats its template with. *)
Definition recovery_data (self : Self) : gmap string string :=
  <["master_cname" := master_cname self]> (self_settings self ∪ metadata self).

(** A string without whitespace, hence one word for [split]. *)
Fixpoint whitespace_free (s : string) : bool :=
  match s with
  | EmptyString => true
  | String c rest => negb (is_whitespace c) && whitespace_free rest
  end.

(** Whether [promote] gets past its guard: [check_master] answered, or failed
    with [OperationalError], and did not answer True unless [force] is set. *)
Definition guard_passes (self : Self) (force : bool) (env : Env) (st : State) : Prop :=
  match (PostgresqlCluster.check_master self env st).1 with
  | Return active => active = true -> force = true
  | Raise e => PostgresqlCluster.is_OperationalError e = true
  end.

(** The commands of a [publish], in the order they are written. *)
Definition validate_commands : list string :=
  ["pep8 --exclude=migrations --ignore=E501,E225 ec2cluster";
   "pyflakes ec2cluster";
   "python -m unittest ec2cluster.tests"].

Definition publish_commands (version : string) (run_tests : bool) : list string :=
  (if run_tests then validate_commands else [])
  ++ ["git push"; "python setup.py sdist upload"; "git tag " +:+ "v" +:+ version;
      "git push origin --tags"].

(** The commands a run gets to: each one up to and including the first that
    fails. *)
Fixpoint executed (ok : string -> bool) (commands : list string) : list string :=
  match commands with
  | [] => []
  | c :: rest => c :: (if ok c then executed ok rest else [])
  end.

(** * Properties *)

(** ** The resolver over the zone *)

Lemma resolve_nxdomain z name rdtype :
  records_named name z = [] ->
  resolve z name rdtype = Raise (DnsException NXDOMAIN).
Proof. intros H. unfold resolve. rewrite H. reflexivity. Qed.

Lemma resolve_answer z name rdtype r :
  In r z -> rr_name r = name -> rr_type r = rdtype -> rr_values r <> [] ->
  exists v items, resolve z name rdtype = Return (v :: items).
Proof.
  intros Hin Hname Htype Hvals. unfold resolve.
  assert (Hn : In r (records_named name z)).
  { apply filter_In. split; [exact Hin | apply bool_decide_eq_true; exact Hname]. }
  destruct (records_named name z) as [|r0 rs] eqn:Hrs; [destruct Hn |].
  destruct (rr_values r) as [|v vs] eqn:Hv; [congruence |].
  assert (Hc : In v (List.concat (List.map rr_values
            (List.filter (fun r => bool_decide (rr_type r = rdtype)) (r0 :: rs))))).
  { apply in_concat. exists (rr_values r). split.
    - apply in_map. apply filter_In. split; [exact Hn |].
      apply bool_decide_eq_true; exact Htype.
    - rewrite Hv. left. reflexivity. }
  destruct (List.concat _) as [|w ws]; [destruct Hc |].
  exists w, ws. reflexivity.
Qed.

Lemma resolve_return_named z name rdtype items :
  resolve z name rdtype = Return items -> records_named name z <> [].
Proof.
  unfold resolve. destruct (records_named name z); [discriminate | discriminate].
Qed.

(** Unfolding of the monad's operations, for runs on a symbolic state. *)
Ltac run :=
  unfold mbind, M_bind, mret, M_ret, try_except, try_except_else, logger,
    print, modify, raise, ask, get_state, dns_resolver_query;
  simpl.

Lemma binding_resolves name z :
  binding_exists name z -> exists v items, resolve z name "CNAME" = Return (v :: items).
Proof.
  intros (r & Hin & Hname & Htype & Hvals).
  exact (resolve_answer z name "CNAME" r Hin Hname Htype Hvals).
Qed.

(** ** Role resolution *)

Lemma resolve_no_answer name z :
  records_named name z <> [] -> ~ binding_exists name z ->
  resolve z name "CNAME" = Raise (DnsException NoAnswer).
Proof.
  intros Hsome Hnone. unfold resolve.
  destruct (records_named name z) as [|r0 rs] eqn:Hrs; [congruence |].
  destruct (List.concat _) as [|v items] eqn:Hitems; [reflexivity |].
  exfalso. apply Hnone.
  assert (Hv : In v (List.concat (List.map rr_values
            (List.filter (fun r => bool_decide (rr_type r = "CNAME")) (r0 :: rs)))))
    by (rewrite Hitems; left; reflexivity).
  apply in_concat in Hv as (vals & Hvals & Hin).
  apply in_map_iff in Hvals as (r & <- & Hr).
  apply filter_In in Hr as [Hr Htype]. apply bool_decide_eq_true in Htype.
  rewrite <- Hrs in Hr. apply filter_In in Hr as [Hz Hname].
  apply bool_decide_eq_true in Hname.
  exists r. repeat split; try assumption.
  intros Hempty. rewrite Hempty in Hin. destruct Hin.
Qed.

(** C1 as stated fails: a zone whose only record of the master name is an
    address record holds no CNAME of that name, yet [determine_role] does
    not return MASTER; the query ends in NoAnswer, which is not caught. *)
Lemma determine_role_counterexample :
  let address := {| rr_name := "master.vagranttest.example.com"; rr_type := "A";
                    rr_ttl := 60; rr_weight := None; rr_identifier := None;
                    rr_values := ["10.0.0.12"] |} in
  let st := Sample.state_with [address] in
  dns_fault Sample.env = None
  /\ ~ binding_exists (master_cname Sample.self) (zone st)
  /\ (BaseCluster.determine_role Sample.self Sample.env st).1
     = Raise (DnsException NoAnswer)
  /\ (BaseCluster.determine_role Sample.self Sample.env st).1
     <> Return BaseCluster.MASTER.
Proof.
  intros address st. split; [reflexivity |]. split; [| split].
  - intros (r & Hin & _ & Htype & _).
    destruct Hin as [<- | []]. discriminate Htype.
  - reflexivity.
  - discriminate.
Qed.

(** C1, amended. With a resolver that answers, [determine_role] returns
    MASTER when the zone has no record at all of the master name, and SLAVE
    as soon as a CNAME of that name exists, whatever its target; when the
    name has records but no CNAME among them, it returns neither and raises
    the resolver's NoAnswer. *)
Theorem determine_role_by_binding (self : Self) (env : Env) (st : State) :
  dns_fault env = None ->
  (records_named (master_cname self) (zone st) = [] ->
     (BaseCluster.determine_role self env st).1 = Return BaseCluster.MASTER)
  /\ (binding_exists (master_cname self) (zone st) ->
      (BaseCluster.determine_role self env st).1 = Return BaseCluster.SLAVE)
  /\ (records_named (master_cname self) (zone st) <> [] ->
      ~ binding_exists (master_cname self) (zone st) ->
      (BaseCluster.determine_role self env st).1 = Raise (DnsException NoAnswer)).
Proof.
  intros Hfault. split; [| split].
  - intros Habsent. unfold BaseCluster.determine_role. run.
    rewrite Hfault, (resolve_nxdomain _ _ _ Habsent). reflexivity.
  - intros Hb.
    destruct (binding_resolves (master_cname self) (zone st) Hb) as (v & items & Hres).
    unfold BaseCluster.determine_role. run.
    rewrite Hfault, Hres. reflexivity.
  - intros Hsome Hnone. unfold BaseCluster.determine_role. run.
    rewrite Hfault, (resolve_no_answer _ _ Hsome Hnone). reflexivity.
Qed.

(** Whatever the record points at: any target, TTL, weight or identifier. *)
Lemma binding_exists_any_target name z target ttl weight identifier :
  In {| rr_name := name; rr_type := "CNAME"; rr_ttl := ttl; rr_weight := weight;
        rr_identifier := identifier; rr_values := [target] |} z ->
  binding_exists name z.
Proof.
  intros Hin. eexists. split; [exact Hin |]. simpl. repeat split; discriminate.
Qed.

Lemma determine_role_by_binding_witness :
  (BaseCluster.determine_role Sample.self Sample.env (Sample.state_with [])).1
    = Return BaseCluster.MASTER
  /\ (BaseCluster.determine_role Sample.self Sample.env
        (Sample.state_with [Sample.master_record "ec2-1.example.com"])).1
    = Return BaseCluster.SLAVE
  /\ (BaseCluster.determine_role Sample.self Sample.env
        (Sample.state_with [{| rr_name := "master.vagranttest.example.com";
                               rr_type := "TXT"; rr_ttl := 60; rr_weight := None;
                               rr_identifier := None; rr_values := ["v=1"] |}])).1
    = Raise (DnsException NoAnswer).
Proof.
  split; [| split].
  - apply (determine_role_by_binding Sample.self Sample.env (Sample.state_with []));
      reflexivity.
  - apply (determine_role_by_binding Sample.self Sample.env
             (Sample.state_with [Sample.master_record "ec2-1.example.com"]) eq_refl).
    apply (binding_exists_any_target _ _ "ec2-1.example.com" 60 None None).
    left. reflexivity.
  - apply (determine_role_by_binding Sample.self Sample.env
             (Sample.state_with [{| rr_name := "master.vagranttest.example.com";
                                    rr_type := "TXT"; rr_ttl := 60; rr_weight := None;
                                    rr_identifier := None; rr_values := ["v=1"] |}])
             eq_refl).
    + vm_compute. discriminate.
    + intros (r & Hin & _ & Htype & _).
      destruct Hin as [<- | []]. discriminate Htype.
Defined.

(** C8. A lookup failure other than NXDOMAIN leaves [determine_role] as the
    exception it is; MASTER is returned only after NXDOMAIN. *)
Theorem determine_role_lookup_failure (self : Self) (env : Env) (st : State) :
  (forall e st1,
     dns_resolver_query (master_cname self) "CNAME" env st = (Raise e, st1) ->
     e <> DnsException NXDOMAIN ->
     (BaseCluster.determine_role self env st).1 = Raise e)
  /\ ((BaseCluster.determine_role self env st).1 = Return BaseCluster.MASTER <->
      (dns_resolver_query (master_cname self) "CNAME" env st).1
        = Raise (DnsException NXDOMAIN)).
Proof.
  unfold BaseCluster.determine_role. run. split.
  - intros e st1 Hq Hne.
    destruct (dns_fault env) as [f|].
    + injection Hq as <- <-. destruct f; simpl; congruence.
    + destruct (resolve (zone st) (master_cname self) "CNAME") as [a|e'];
        [discriminate |].
      injection Hq as <- <-.
      destruct e' as [[] | | | | | | | | | | | |]; simpl; congruence.
  - destruct (dns_fault env) as [f|].
    + destruct f; simpl; split; congruence.
    + destruct (resolve (zone st) (master_cname self) "CNAME") as [a|e']; simpl.
      * split; discriminate.
      * destruct e' as [[] | | | | | | | | | | | |]; simpl; split; congruence.
Qed.

Lemma determine_role_lookup_failure_witness :
  let env := {| settings := Sample.the_settings;
                dns_fault := Some Timeout;
                route53_fault := None;
                pg_connect := Sample.unreachable;
                run_process := Sample.succeeds;
                read_file := fun _ => None;
                writable := fun _ => true;
                format_template := fun t _ => inl t |} in
  (BaseCluster.determine_role Sample.self env (Sample.state_with [])).1
    = Raise (DnsException Timeout).
Proof.
  intros env.
  apply (proj1 (determine_role_lookup_failure Sample.self env (Sample.state_with []))
           (DnsException Timeout) (Sample.state_with [])).
  - reflexivity.
  - discriminate.
Defined.

(** ** Claiming the master CNAME *)

(** C2. When the master CNAME exists and [force] is false,
    [acquire_master_cname] raises its "exists and force is False" exception
    before any Route53 call: the state differs only by two log lines. *)
Theorem acquire_without_force_refuses (self : Self) (env : Env) (st : State) :
  dns_fault env = None ->
  binding_exists (master_cname self) (zone st) ->
  EC2Mixin.acquire_master_cname self false env st
  = (Raise (Exception ("CNAME " +:+ master_cname self
                       +:+ " exists and force is False - not taking the CNAME")),
     set_log (log st ++ [(INFO, master_cname self +:+ " already exists, so updating it");
                         (CRITICAL, "CNAME " +:+ master_cname self
                                    +:+ " exists and force is false - exiting")]) st)
  /\ zone (EC2Mixin.acquire_master_cname self false env st).2 = zone st.
Proof.
  intros Hfault Hb.
  destruct (binding_resolves _ _ Hb) as (v & items & Hres).
  unfold EC2Mixin.acquire_master_cname. run.
  rewrite Hfault, Hres. simpl. rewrite <- app_assoc. split; reflexivity.
Qed.

Lemma acquire_without_force_refuses_witness :
  zone (EC2Mixin.acquire_master_cname Sample.self false Sample.env
          (Sample.state_with [Sample.master_record "ec2-1.example.com"])).2
  = [Sample.master_record "ec2-1.example.com"].
Proof.
  apply (acquire_without_force_refuses Sample.self Sample.env
           (Sample.state_with [Sample.master_record "ec2-1.example.com"])).
  - reflexivity.
  - exists (Sample.master_record "ec2-1.example.com"). simpl.
    repeat split; [left; reflexivity | discriminate].
Defined.

Lemma same_key_name r x : same_key r x = true -> rr_name x = rr_name r.
Proof.
  unfold same_key. intros H.
  apply andb_true_iff in H as [H _]. apply andb_true_iff in H as [H _].
  apply bool_decide_eq_true in H. congruence.
Qed.

Lemma same_key_refl r : same_key r r = true.
Proof. unfold same_key. rewrite !bool_decide_eq_true_2; reflexivity. Qed.

Lemma records_named_In name z x :
  In x (records_named name z) <-> In x z /\ rr_name x = name.
Proof.
  unfold records_named. rewrite filter_In, bool_decide_eq_true. reflexivity.
Qed.

Lemma records_named_app name z z' :
  records_named name (z ++ z') = records_named name z ++ records_named name z'.
Proof. apply List.filter_app. Qed.

Lemma absent_no_same_key name z r :
  records_named name z = [] -> rr_name r = name -> existsb (same_key r) z = false.
Proof.
  intros Habs Hname. apply not_true_is_false. intros Hex.
  apply existsb_exists in Hex as (x & Hin & Hk).
  assert (Hx : In x (records_named name z)).
  { apply records_named_In. split; [exact Hin |]. rewrite <- Hname.
    apply same_key_name; exact Hk. }
  rewrite Habs in Hx. destruct Hx.
Qed.

Lemma only_record_found name z r :
  records_named name z = [r] -> List.find (same_key r) z = Some r.
Proof.
  intros Hone.
  assert (Hr : In r z /\ rr_name r = name).
  { apply records_named_In. rewrite Hone. left. reflexivity. }
  destruct (List.find (same_key r) z) as [x|] eqn:Hf.
  - apply find_some in Hf as [Hin Hk].
    assert (Hx : In x (records_named name z)).
    { apply records_named_In. split; [exact Hin |].
      rewrite (same_key_name _ _ Hk). apply Hr. }
    rewrite Hone in Hx. destruct Hx as [-> | []]. reflexivity.
  - exfalso. pose proof (find_none _ _ Hf r (proj1 Hr)) as Hn.
    rewrite same_key_refl in Hn. discriminate.
Qed.

Lemma records_named_without name z r :
  records_named name z = [r] ->
  records_named name (List.filter (fun x => negb (bool_decide (x = r))) z) = [].
Proof.
  intros Hone.
  destruct (records_named name (List.filter _ z)) as [|x xs] eqn:Hrest; [reflexivity |].
  exfalso.
  assert (Hx : In x (records_named name (List.filter
                       (fun x => negb (bool_decide (x = r))) z))).
  { rewrite Hrest. left. reflexivity. }
  apply records_named_In in Hx as [Hx Hname].
  apply filter_In in Hx as [Hin Hne].
  assert (Hx : In x (records_named name z)).
  { apply records_named_In. split; assumption. }
  rewrite Hone in Hx. destruct Hx as [-> | []].
  rewrite bool_decide_eq_true_2 in Hne by reflexivity. discriminate.
Qed.

Lemma filter_out_foreign name z r :
  records_named name z = [] -> rr_name r = name ->
  List.filter (fun x => negb (bool_decide (x = r))) (z ++ [r]) = z.
Proof.
  intros Habs Hname. rewrite List.filter_app. simpl.
  rewrite bool_decide_eq_true_2 by reflexivity. simpl. rewrite app_nil_r.
  apply forallb_filter_id. apply forallb_forall. intros x Hin.
  apply negb_true_iff, bool_decide_eq_false. intros ->.
  assert (Hx : In r (records_named name z)).
  { apply records_named_In. split; assumption. }
  rewrite Habs in Hx. destruct Hx.
Qed.

(** The zone after a forced claim, from either prior state. *)
Lemma create_on_absent name z r :
  records_named name z = [] -> rr_name r = name ->
  apply_changes z [(CREATE, r)] = inl (z ++ [r]).
Proof.
  intros Habs Hname. simpl. rewrite (absent_no_same_key name z r Habs Hname).
  reflexivity.
Qed.

Lemma replace_on_bound name z old new :
  records_named name z = [old] -> rr_name new = name ->
  apply_changes z [(DELETE, old); (CREATE, new)]
  = inl (List.filter (fun x => negb (bool_decide (x = old))) z ++ [new]).
Proof.
  intros Hone Hname. simpl. rewrite (only_record_found name z old Hone).
  rewrite bool_decide_eq_true_2 by reflexivity.
  rewrite (absent_no_same_key name _ new (records_named_without name z old Hone) Hname).
  reflexivity.
Qed.

Lemma commit_applies (env : Env) (st : State) (changes : ChangeBatch) z' :
  route53_fault env = None ->
  apply_changes (zone st) changes = inl z' ->
  commit changes env st = (Return tt, set_zone z' st).
Proof. intros Hr53 Happ. unfold commit. rewrite Hr53, Happ. reflexivity. Qed.

Lemma commit_refuses (env : Env) (st : State) (changes : ChangeBatch) msg :
  route53_fault env = None ->
  apply_changes (zone st) changes = inr msg ->
  commit changes env st = (Raise (DNSServerError msg), st).
Proof. intros Hr53 Happ. unfold commit. rewrite Hr53, Happ. reflexivity. Qed.

Lemma commit_rejected (env : Env) (st : State) (changes : ChangeBatch) e st1 :
  commit changes env st = (Raise e, st1) ->
  st1 = st /\ exists msg, e = DNSServerError msg.
Proof.
  unfold commit. destruct (route53_fault env) as [msg|].
  - intros H. injection H as <- <-. eauto.
  - destruct (apply_changes (zone st) changes) as [z'|msg]; [discriminate |].
    intros H. injection H as <- <-. eauto.
Qed.

Lemma acquire_force_on_absent (self : Self) (env : Env) (st : State) hostname :
  dns_fault env = None -> route53_fault env = None ->
  metadata self !! "public-hostname" = Some hostname ->
  records_named (master_cname self) (zone st) = [] ->
  exists st1,
    EC2Mixin.acquire_master_cname self true env st = (Return tt, st1)
    /\ zone st1 = zone st ++ [primary_binding self env hostname].
Proof.
  intros Hdns Hr53 Hhost Habs.
  unfold EC2Mixin.acquire_master_cname, EC2Mixin._get_route53_conn, getitem. run.
  rewrite Hdns, (resolve_nxdomain _ _ _ Habs). simpl.
  rewrite Hhost. simpl.
  erewrite commit_applies;
    [| exact Hr53
     | apply (create_on_absent (master_cname self)); [exact Habs | reflexivity]].
  eexists. split; reflexivity.
Qed.

Lemma acquire_force_on_bound (self : Self) (env : Env) (st : State) hostname old :
  dns_fault env = None -> route53_fault env = None ->
  metadata self !! "public-hostname" = Some hostname ->
  records_named (master_cname self) (zone st) = [primary_binding self env old] ->
  to_text old = old ->
  exists st1,
    EC2Mixin.acquire_master_cname self true env st = (Return tt, st1)
    /\ zone st1
       = List.filter (fun x => negb (bool_decide (x = primary_binding self env old)))
           (zone st) ++ [primary_binding self env hostname].
Proof.
  intros Hdns Hr53 Hhost Hone Hdot.
  unfold EC2Mixin.acquire_master_cname, EC2Mixin._get_route53_conn, getitem, first_item.
  run. rewrite Hdns. unfold resolve. rewrite Hone. simpl.
  rewrite Hhost. simpl. rewrite Hdot.
  erewrite commit_applies;
    [| exact Hr53
     | apply (replace_on_bound (master_cname self)); [exact Hone | reflexivity]].
  eexists. split; reflexivity.
Qed.

(** Where the forced claim does go through: the name has no record, or its
    one record is the CNAME a claim writes and its target is stored the way
    [to_text] renders it, with the dot at the end. *)
Lemma acquire_force_takes_rendered (self : Self) (env : Env) (st : State) hostname :
  dns_fault env = None -> route53_fault env = None ->
  metadata self !! "public-hostname" = Some hostname ->
  to_text hostname = hostname ->
  (records_named (master_cname self) (zone st) = []
   \/ exists old,
        to_text old = old
        /\ records_named (master_cname self) (zone st) = [primary_binding self env old]) ->
  exists st1 st2,
    EC2Mixin.acquire_master_cname self true env st = (Return tt, st1)
    /\ records_named (master_cname self) (zone st1) = [primary_binding self env hostname]
    /\ EC2Mixin.acquire_master_cname self true env st1 = (Return tt, st2)
    /\ zone st2 = zone st1.
Proof.
  intros Hdns Hr53 Hhost Hdot Hprior.
  assert (Hfirst : exists st1 z1,
    EC2Mixin.acquire_master_cname self true env st = (Return tt, st1)
    /\ zone st1 = z1 ++ [primary_binding self env hostname]
    /\ records_named (master_cname self) z1 = []).
  { destruct Hprior as [Habs | (old & Hold & Hone)].
    - destruct (acquire_force_on_absent self env st hostname) as (st1 & Hrun & Hz);
        try assumption.
      exists st1, (zone st). auto.
    - destruct (acquire_force_on_bound self env st hostname old) as (st1 & Hrun & Hz);
        try assumption.
      exists st1, (List.filter
                     (fun x => negb (bool_decide (x = primary_binding self env old)))
                     (zone st)).
      split; [exact Hrun |]. split; [exact Hz |].
      apply records_named_without. exact Hone. }
  destruct Hfirst as (st1 & z1 & Hrun1 & Hz1 & Hclean).
  assert (Hnamed : records_named (master_cname self) (zone st1)
                   = [primary_binding self env hostname]).
  { rewrite Hz1, records_named_app, Hclean. simpl.
    rewrite bool_decide_eq_true_2 by reflexivity. reflexivity. }
  destruct (acquire_force_on_bound self env st1 hostname hostname) as (st2 & Hrun2 & Hz2);
    try assumption.
  exists st1, st2. repeat split; try assumption.
  rewrite Hz2, Hz1.
  rewrite (filter_out_foreign (master_cname self)) by (assumption || reflexivity).
  reflexivity.
Qed.

Lemma keyed_record_found name z r d :
  records_named name z = [r] -> rr_name d = name -> same_key d r = true ->
  List.find (same_key d) z = Some r.
Proof.
  intros Hone Hname Hkey.
  assert (Hr : In r z /\ rr_name r = name).
  { apply records_named_In. rewrite Hone. left. reflexivity. }
  destruct (List.find (same_key d) z) as [x|] eqn:Hf.
  - apply find_some in Hf as [Hin Hk].
    assert (Hx : In x (records_named name z)).
    { apply records_named_In. split; [exact Hin |].
      rewrite (same_key_name _ _ Hk). exact Hname. }
    rewrite Hone in Hx. destruct Hx as [-> | []]. reflexivity.
  - exfalso. pose proof (find_none _ _ Hf r (proj1 Hr)) as Hn. congruence.
Qed.

(** Where it does not: the one record of the name is a CNAME that differs
    from the record the DELETE names, because its target is stored without
    the final dot that [to_text] writes, or because its TTL is not the
    configured one. Route53 rejects the batch, the call raises, and the old
    record stays. *)
Lemma acquire_force_rejected_on_mismatch (self : Self) (env : Env) (st : State)
    hostname old ttl :
  dns_fault env = None -> route53_fault env = None ->
  metadata self !! "public-hostname" = Some hostname ->
  records_named (master_cname self) (zone st)
  = [{| rr_name := master_cname self; rr_type := "CNAME"; rr_ttl := ttl;
        rr_weight := None; rr_identifier := None; rr_values := [old] |}] ->
  to_text old <> old \/ ttl <> MASTER_CNAME_TTL (settings env) ->
  exists msg st1,
    EC2Mixin.acquire_master_cname self true env st = (Raise (DNSServerError msg), st1)
    /\ zone st1 = zone st.
Proof.
  intros Hdns Hr53 Hhost Hone Hdiff.
  unfold EC2Mixin.acquire_master_cname, EC2Mixin._get_route53_conn, getitem, first_item.
  run. rewrite Hdns. unfold resolve. rewrite Hone. simpl.
  rewrite Hhost. simpl.
  erewrite commit_refuses; [eexists; eexists; split; reflexivity | exact Hr53 |].
  simpl.
  erewrite (keyed_record_found (master_cname self));
    [ | exact Hone | reflexivity
      | unfold same_key; simpl; rewrite !bool_decide_eq_true_2 by reflexivity;
        reflexivity ].
  rewrite bool_decide_eq_false_2; [reflexivity |].
  intros Heq. injection Heq as Httl Hval. destruct Hdiff; congruence.
Qed.


(** ** Joining the slave pool *)

(** [endswith] on a string built by appending the suffix. *)
Lemma length_app (a b : string) :
  String.length (a +:+ b) = (String.length a + String.length b)%nat.
Proof.
  induction a as [|c a IH]; [reflexivity |].
  change (S (String.length (a +:+ b)) = S (String.length a + String.length b)).
  rewrite IH. reflexivity.
Qed.

Lemma string_app_assoc (a b c : string) : (a +:+ b) +:+ c = a +:+ (b +:+ c).
Proof.
  induction a as [|x a IH]; [reflexivity |].
  change (String x ((a +:+ b) +:+ c) = String x (a +:+ (b +:+ c))).
  rewrite IH. reflexivity.
Qed.

Lemma substring_all (b : string) : String.substring 0 (String.length b) b = b.
Proof. induction b as [|c b IH]; simpl; [reflexivity | rewrite IH; reflexivity]. Qed.

Lemma substring_suffix (a b : string) :
  String.substring (String.length a) (String.length b) (a +:+ b) = b.
Proof.
  induction a as [|c a IH]; [apply substring_all |].
  change (String.substring (String.length a) (String.length b) (a +:+ b) = b).
  exact IH.
Qed.

Lemma endswith_app (a suffix : string) : endswith (a +:+ suffix) suffix = true.
Proof.
  unfold endswith. rewrite length_app.
  replace (String.length suffix <=? String.length a + String.length suffix)%nat
    with true by (symmetry; apply Nat.leb_le; lia).
  replace (String.length a + String.length suffix - String.length suffix)%nat
    with (String.length a) by lia.
  rewrite substring_suffix. apply String.eqb_refl.
Qed.

Lemma create_already_exists z r :
  existsb (same_key r) z = true ->
  exists msg, apply_changes z [(CREATE, r)] = inr msg
              /\ endswith msg "it already exists" = true.
Proof.
  intros Hex. simpl. rewrite Hex. eexists. split; [reflexivity |].
  change " but it already exists" with (" but " +:+ "it already exists").
  rewrite <- !string_app_assoc. apply endswith_app.
Qed.

(** What [add_to_slave_cname_pool] does with the outcome of its commit. *)
Lemma add_to_pool_by_commit (self : Self) (env : Env) (st : State) instance_id hostname :
  metadata self !! "instance-id" = Some instance_id ->
  metadata self !! "public-hostname" = Some hostname ->
  EC2Mixin.add_to_slave_cname_pool self env st
  = let st0 := set_log (log st ++ [(INFO, "Adding " +:+ instance_id
                                          +:+ " to CNAME pool for " +:+ slave_cname self)]) st in
    match commit [(CREATE, pool_entry self env instance_id hostname)] env st0 with
    | (Return _, s1) =>
        (Return tt, set_log (log s1 ++ [(INFO, "Finished updating DNS records")]) s1)
    | (Raise (DNSServerError msg), s1) =>
        if endswith msg "it already exists"
        then (Return tt,
              set_log (log s1 ++ [(WARNING,
                         "Attempted to create a CNAME, but one already exists for this instance");
                                  (INFO, "Finished updating DNS records")]) s1)
        else (Raise (DNSServerError msg), s1)
    | (Raise e, s1) => (Raise e, s1)
    end.
Proof.
  intros Hid Hhost.
  unfold EC2Mixin.add_to_slave_cname_pool, EC2Mixin._get_route53_conn, getitem. run.
  rewrite Hid. simpl. rewrite Hhost. simpl.
  change {| rr_name := slave_cname self; rr_type := "CNAME";
            rr_ttl := SLAVE_CNAME_TTL (settings env); rr_weight := Some "10";
            rr_identifier := Some instance_id; rr_values := [hostname] |}
    with (pool_entry self env instance_id hostname).
  destruct (commit _ env _) as [[[]|e] s1]; [reflexivity |].
  destruct e; try reflexivity.
  destruct (endswith error_message "it already exists"); simpl;
    [rewrite <- app_assoc |]; reflexivity.
Qed.

Lemma commit_zone_only (env : Env) (st st0 : State) (changes : ChangeBatch) :
  zone st0 = zone st ->
  (commit changes env st0).1 = (commit changes env st).1
  /\ zone (commit changes env st0).2 = zone (commit changes env st).2.
Proof.
  intros Hz. unfold commit. rewrite Hz.
  destruct (route53_fault env); [simpl; auto |].
  destruct (apply_changes (zone st) changes); simpl; auto.
Qed.

(** C5. [add_to_slave_cname_pool] swallows exactly the server error whose
    message ends with "it already exists" and raises every other one again;
    Route53 answers that way when the pool already has a record with this
    instance's identifier, so a second registration returns normally and
    the pool keeps one record for the identifier. *)
Theorem add_to_slave_cname_pool_idempotent (self : Self) (env : Env) (st : State)
    instance_id hostname :
  metadata self !! "instance-id" = Some instance_id ->
  metadata self !! "public-hostname" = Some hostname ->
  let entry := pool_entry self env instance_id hostname in
  let out := EC2Mixin.add_to_slave_cname_pool self env st in
  (forall msg,
     (commit [(CREATE, entry)] env st).1 = Raise (DNSServerError msg) ->
     zone out.2 = zone st
     /\ out.1 = if endswith msg "it already exists"
                then Return tt else Raise (DNSServerError msg))
  /\ (route53_fault env = None ->
      existsb (same_key entry) (zone st) = true ->
      out.1 = Return tt /\ zone out.2 = zone st)
  /\ (route53_fault env = None ->
      existsb (same_key entry) (zone st) = false ->
      out.1 = Return tt /\ zone out.2 = zone st ++ [entry]
      /\ (EC2Mixin.add_to_slave_cname_pool self env out.2).1 = Return tt
      /\ zone (EC2Mixin.add_to_slave_cname_pool self env out.2).2 = zone st ++ [entry]
      /\ List.filter (same_key entry) (zone st ++ [entry]) = [entry]).
Proof.
  intros Hid Hhost entry out.
  assert (Hswallow : forall s msg,
    (commit [(CREATE, entry)] env s).1 = Raise (DNSServerError msg) ->
    zone (EC2Mixin.add_to_slave_cname_pool self env s).2 = zone s
    /\ (EC2Mixin.add_to_slave_cname_pool self env s).1
       = if endswith msg "it already exists"
         then Return tt else Raise (DNSServerError msg)).
  { intros s msg Hc.
    rewrite (add_to_pool_by_commit self env s instance_id hostname Hid Hhost).
    cbv zeta. fold entry.
    set (s0 := set_log _ s).
    destruct (commit_zone_only env s s0 [(CREATE, entry)] eq_refl) as [H1 H2].
    rewrite Hc in H1.
    destruct (commit [(CREATE, entry)] env s0) as [r s1] eqn:Hc0.
    simpl in H1. subst r.
    destruct (commit_rejected _ _ _ _ _ Hc0) as [-> _].
    destruct (endswith msg "it already exists"); simpl; auto. }
  assert (Hpresent : forall s,
    route53_fault env = None -> existsb (same_key entry) (zone s) = true ->
    (EC2Mixin.add_to_slave_cname_pool self env s).1 = Return tt
    /\ zone (EC2Mixin.add_to_slave_cname_pool self env s).2 = zone s).
  { intros s Hr53 Hex.
    destruct (create_already_exists (zone s) entry Hex) as (msg & Happ & Hend).
    destruct (Hswallow s msg) as [Hz Hr].
    { unfold commit. rewrite Hr53, Happ. reflexivity. }
    rewrite Hend in Hr. auto. }
  split; [exact (Hswallow st) |]. split; [exact (Hpresent st) |].
  intros Hr53 Hfresh.
  assert (Hout : out.1 = Return tt /\ zone out.2 = zone st ++ [entry]).
  { unfold out.
    rewrite (add_to_pool_by_commit self env st instance_id hostname Hid Hhost).
    cbv zeta. fold entry.
    erewrite commit_applies; [| exact Hr53 | simpl; rewrite Hfresh; reflexivity].
    simpl. auto. }
  destruct Hout as [Hr Hz].
  assert (Hnow : existsb (same_key entry) (zone out.2) = true).
  { rewrite Hz, existsb_app. simpl. rewrite same_key_refl. apply orb_true_r. }
  destruct (Hpresent out.2 Hr53 Hnow) as [Hr2 Hz2].
  rewrite Hz in Hz2.
  repeat split; try assumption.
  rewrite List.filter_app. simpl. rewrite same_key_refl.
  replace (List.filter (same_key entry) (zone st)) with (@nil RRSet); [reflexivity |].
  symmetry. destruct (List.filter (same_key entry) (zone st)) as [|x xs] eqn:Hf;
    [reflexivity |].
  assert (Hx : In x (List.filter (same_key entry) (zone st))) by (rewrite Hf; left; reflexivity).
  apply filter_In in Hx as [Hin Hk].
  assert (existsb (same_key entry) (zone st) = true)
    by (apply existsb_exists; eauto).
  congruence.
Qed.

Lemma add_to_slave_cname_pool_idempotent_witness :
  let st := Sample.state_with
              [Sample.pool_record "i-12346" "instance12346.vagranttest.example.com"] in
  (EC2Mixin.add_to_slave_cname_pool Sample.self Sample.env st).1 = Return tt
  /\ zone (EC2Mixin.add_to_slave_cname_pool Sample.self Sample.env st).2 = zone st.
Proof.
  intros st.
  destruct (add_to_slave_cname_pool_idempotent Sample.self Sample.env st
              "i-12346" "instance12346.vagranttest.example.com")
    as (_ & Hpresent & _).
  - vm_compute. reflexivity.
  - vm_compute. reflexivity.
  - apply Hpresent; reflexivity.
Defined.

(** ** Promotion *)

(** The guard only talks to the database: of the state it touches the log
    and nothing else. *)
Lemma check_master_log_only (self : Self) (env : Env) (st : State) :
  exists l, (PostgresqlCluster.check_master self env st).2 = set_log l st.
Proof.
  unfold PostgresqlCluster.check_master, PostgresqlCluster._get_conn,
    PostgresqlCluster.execute, PostgresqlCluster.fetchone, PostgresqlCluster.cursor.
  run.
  destruct (pg_connect env _) as [conn|e]; simpl.
  - destruct (cur_execute conn "SELECT pg_is_in_recovery()"); simpl;
      [eexists; reflexivity |].
    destruct (py_eq_str _ "t"); simpl; [eexists; reflexivity |].
    destruct (cur_execute conn "SELECT 1"); simpl; [eexists; reflexivity |].
    destruct (py_eq_str _ "1"); simpl; eexists; reflexivity.
  - destruct e; simpl; eexists; reflexivity.
Qed.

(** The guard of [promote] on its own: if [check_master] does return True
    and [force] is false, [promote] prints its refusal and returns: no
    command is run, the crontab and the zone stay as they were. *)
Lemma promote_refuses_on_active_master (self : Self) (env : Env) (st st1 : State) :
  PostgresqlCluster.check_master self env st = (Return true, st1) ->
  PostgresqlCluster.promote self false env st
  = (Return tt, set_stdout (stdout st ++ refusal self) st1)
  /\ processes (PostgresqlCluster.promote self false env st).2 = processes st
  /\ crontab (PostgresqlCluster.promote self false env st).2 = crontab st
  /\ zone (PostgresqlCluster.promote self false env st).2 = zone st.
Proof.
  intros Hcheck.
  destruct (check_master_log_only self env st) as [l Hl].
  rewrite Hcheck in Hl. simpl in Hl. subst st1.
  assert (Hrun : PostgresqlCluster.promote self false env st
                 = (Return tt, set_stdout (stdout st ++ refusal self) (set_log l st))).
  { unfold PostgresqlCluster.promote. run. rewrite Hcheck. simpl.
    rewrite <- app_assoc. reflexivity. }
  rewrite Hrun. repeat split.
Qed.

Lemma promote_refuses_on_active_master_witness :
  let env := Sample.env_with (fun _ => inl (Sample.text_server false)) Sample.succeeds in
  let st := Sample.state_with [Sample.master_record "ec2-1.example.com"] in
  processes (PostgresqlCluster.promote Sample.self false env st).2 = [].
Proof.
  intros env st.
  eapply (promote_refuses_on_active_master Sample.self env st).
  vm_compute. reflexivity.
Defined.

(** C9. When the connection to the master CNAME fails with
    [OperationalError], [check_master] returns False and
    [promote(force=False)] runs the promotion command, once; if the command
    succeeds, [promote] returns normally. *)
Theorem promote_proceeds_when_unreachable (self : Self) (env : Env) (st : State) msg :
  (PostgresqlCluster._get_conn (Some (master_cname self)) None None env st).1
    = Raise (Psycopg2Error (OperationalError msg)) ->
  let out := PostgresqlCluster.promote self false env st in
  (PostgresqlCluster.check_master self env st).1 = Return false
  /\ processes out.2 = processes st ++ [py_split (promote_cmd env)]
  /\ (forall output,
        run_process env (py_split (promote_cmd env)) = Exited 0 output ->
        out.1 = Return tt).
Proof.
  intros Hconn out. subst out.
  unfold PostgresqlCluster._get_conn in Hconn. revert Hconn. run.
  destruct (pg_connect env _) as [conn|e] eqn:Hpg; simpl; [discriminate |].
  intros He. injection He as ->.
  unfold PostgresqlCluster.promote, PostgresqlCluster.check_master,
    PostgresqlCluster._get_conn, PostgresqlCluster.configure_cron_backup, check_output.
  run. rewrite Hpg. simpl. fold (promote_cmd env).
  split; [reflexivity |].
  destruct (run_process env (py_split (promote_cmd env))) as [[|p|p] output|m]; simpl.
  - destruct (existsb _ (crontab st)); simpl; split; [reflexivity | | reflexivity |];
      intros; reflexivity.
  - destruct (endswith output _); simpl; split; [reflexivity | | reflexivity |];
      intros; discriminate.
  - destruct (endswith output _); simpl; split; [reflexivity | | reflexivity |];
      intros; discriminate.
  - split; [reflexivity |]. intros; discriminate.
Qed.

Lemma promote_proceeds_when_unreachable_witness :
  let st := Sample.state_with [Sample.master_record "ec2-1.example.com"] in
  processes (PostgresqlCluster.promote Sample.self false Sample.env st).2
  = [["/usr/lib/postgresql/9.1/bin/pg_ctl"; "-D"; "/var/lib/postgresql/9.1/main"; "promote"]].
Proof.
  intros st.
  apply (promote_proceeds_when_unreachable Sample.self Sample.env st
           "could not connect to server").
  reflexivity.
Defined.

(** C6. When the promotion command is reached and exits non-zero with an
    output that ends with "server is not in standby mode\n", [promote] raises
    an [Exception] that carries that output; the command has been run once
    and the backup cron job is not set up. *)
Theorem promote_not_in_standby (self : Self) (force : bool) (env : Env) (st : State)
    code output :
  match (PostgresqlCluster.check_master self env st).1 with
  | Return active => active = true -> force = true
  | Raise e => PostgresqlCluster.is_OperationalError e = true
  end ->
  run_process env (py_split (promote_cmd env)) = Exited code output ->
  code <> 0 ->
  endswith output ("server is not in standby mode" +:+ LF) = true ->
  let out := PostgresqlCluster.promote self force env st in
  out.1 = Raise (Exception output)
  /\ processes out.2 = processes st ++ [py_split (promote_cmd env)]
  /\ crontab out.2 = crontab st.
Proof.
  intros Hreach Hrun Hcode Hend out. subst out.
  destruct (check_master_log_only self env st) as [l Hl].
  destruct (PostgresqlCluster.check_master self env st) as [r s1] eqn:Hcheck.
  simpl in Hreach, Hl. subst s1.
  assert (Hcmd : forall s,
    check_output (py_split (promote_cmd env)) env s
    = (Raise (CalledProcessError code (py_split (promote_cmd env)) output),
       set_processes (processes s ++ [py_split (promote_cmd env)]) s)).
  { intros s. unfold check_output. rewrite Hrun.
    destruct code; [congruence | reflexivity | reflexivity]. }
  unfold PostgresqlCluster.promote. run. rewrite Hcheck.
  fold (promote_cmd env).
  destruct r as [[|]|e]; simpl.
  - rewrite (Hreach eq_refl). simpl. rewrite Hcmd. simpl. rewrite Hend. simpl.
    repeat split.
  - rewrite Hcmd. simpl. rewrite Hend. simpl. repeat split.
  - rewrite Hreach. simpl. rewrite Hcmd. simpl. rewrite Hend. simpl. repeat split.
Qed.

Lemma promote_not_in_standby_witness :
  let env := Sample.env_with Sample.unreachable Sample.not_standby in
  let st := Sample.state_with [Sample.master_record "ec2-1.example.com"] in
  (PostgresqlCluster.promote Sample.self false env st).1
  = Raise (Exception ("pg_ctl: cannot promote server; server is not in standby mode" +:+ LF)).
Proof.
  intros env st.
  apply (promote_not_in_standby Sample.self false env st 1
           ("pg_ctl: cannot promote server; server is not in standby mode" +:+ LF)).
  - vm_compute. intros H; discriminate H.
  - reflexivity.
  - discriminate.
  - vm_compute. reflexivity.
Defined.

(** C3. The guard of [promote] does not hold against a live master.
    psycopg2's [fetchone] returns a row, a tuple, and [check_master]
    compares it with the strings ['t'] and ['1']: for a master that is
    reachable under the master CNAME, is not in recovery and answers
    [SELECT 1], both comparisons fail and [check_master] returns False.
    With [force] false [promote] then prints no refusal, runs
    [pg_ctl ... promote], schedules the backup job and returns. *)
Theorem promote_runs_despite_live_master :
  let env := Sample.env_with (fun _ => inl (Sample.tuple_server false)) Sample.succeeds in
  let st := Sample.state_with [Sample.master_record "ec2-1.example.com"] in
  let out := PostgresqlCluster.promote Sample.self false env st in
  cur_fetchone (Sample.tuple_server false) "SELECT pg_is_in_recovery()"
    = PyTuple [PyBool false]
  /\ cur_fetchone (Sample.tuple_server false) "SELECT 1" = PyTuple [PyInt 1]
  /\ (PostgresqlCluster.check_master Sample.self env st).1 = Return false
  /\ out.1 = Return tt
  /\ processes out.2
     = [["/usr/lib/postgresql/9.1/bin/pg_ctl"; "-D"; "/var/lib/postgresql/9.1/main";
         "promote"]]
  /\ stdout out.2
     = ["Running promote command: "
        +:+ "/usr/lib/postgresql/9.1/bin/pg_ctl -D /var/lib/postgresql/9.1/main promote"]
  /\ crontab out.2 = [backup_job].
Proof. vm_compute. repeat split. Qed.

(** ** Releasing the master CNAME *)

(** C7. [release_master_cname] misses its docstring ("Deletes the master
    CNAME if it is pointing to this instance"): a [PostgresqlCluster] finds
    the method on [BaseCluster], whose body only raises. At a zone whose
    master CNAME points to this very instance the call raises
    [NotImplementedError] and the record stays where it was; at a zone
    without the record it raises just the same. *)
Theorem release_master_cname_raises :
  let own := Sample.master_record "instance12346.vagranttest.example.com" in
  let bound := Sample.state_with [own] in
  let empty := Sample.state_with [] in
  let release := @self_release_master_cname PostgresqlCluster.infrastructure in
  Classes.find_attribute Classes.PostgresqlCluster "release_master_cname"
    = Some Classes.BaseCluster
  /\ metadata Sample.self !! "public-hostname"
     = Some "instance12346.vagranttest.example.com"
  /\ own = primary_binding Sample.self Sample.env "instance12346.vagranttest.example.com"
  /\ (release Sample.self Sample.env bound).1 = Raise NotImplementedError
  /\ zone (release Sample.self Sample.env bound).2 = [own]
  /\ (release Sample.self Sample.env empty).1 = Raise NotImplementedError.
Proof. vm_compute. repeat split. Qed.

(** ** The role dispatch of [initialise] *)

Lemma recognises_ret {A} (a : A) : recognises (mret a).
Proof. intros env st e H. discriminate H. Qed.

Lemma recognises_bind {A B} (m : M A) (f : A -> M B) :
  recognises m -> (forall a, recognises (f a)) -> recognises (m ≫= f).
Proof.
  intros Hm Hf env st e. unfold mbind, M_bind.
  destruct (m env st) as [[a|e'] st'] eqn:Hrun.
  - apply Hf.
  - simpl. intros [= <-]. apply (Hm env st). rewrite Hrun. reflexivity.
Qed.

Lemma recognises_raise {A} (e : exn) : ~ unrecognised e -> recognises (@raise A e).
Proof. intros He env st a [= <-]. exact He. Qed.

Lemma recognises_try_except_else {A B} (body : M A) handler (orelse : A -> M B) :
  recognises body ->
  (forall e h, handler e = Some h -> recognises h) ->
  (forall a, recognises (orelse a)) ->
  recognises (try_except_else body handler orelse).
Proof.
  intros Hb Hh Ho env st e. unfold try_except_else.
  destruct (body env st) as [[a|e'] st'] eqn:Hrun.
  - apply Ho.
  - destruct (handler e') as [h|] eqn:Hhandler.
    + apply (Hh e' h Hhandler).
    + simpl. intros [= <-]. apply (Hb env st). rewrite Hrun. reflexivity.
Qed.

Lemma recognises_try_except {A} (body : M A) handler :
  recognises body ->
  (forall e h, handler e = Some h -> recognises h) ->
  recognises (try_except body handler).
Proof.
  intros Hb Hh. apply recognises_try_except_else; auto using @recognises_ret.
Qed.

Lemma recognises_modify f : recognises (modify f).
Proof. intros env st e H. discriminate H. Qed.

Lemma recognises_logger lv msg : recognises (logger lv msg).
Proof. apply recognises_modify. Qed.

Lemma recognises_ask : recognises ask.
Proof. intros env st e H. discriminate H. Qed.

Lemma recognises_get_state : recognises get_state.
Proof. intros env st e H. discriminate H. Qed.

(** An exception of a class other than the bare [Exception]. *)
Ltac other_class :=
  let r := fresh in let H := fresh in
  intros [r H]; cbv [String.append] in H; discriminate H.

Lemma recognises_query name rdtype : recognises (dns_resolver_query name rdtype).
Proof.
  intros env st e. unfold dns_resolver_query, resolve.
  destruct (dns_fault env); simpl; [intros [= <-]; other_class |].
  destruct (records_named name (zone st)); simpl; [intros [= <-]; other_class |].
  destruct (List.concat _); simpl; [intros [= <-]; other_class | discriminate].
Qed.

Lemma recognises_commit changes : recognises (commit changes).
Proof.
  intros env st e H.
  destruct (commit changes env st) as [r st1] eqn:Hrun. simpl in H. subst r.
  destruct (commit_rejected _ _ _ _ _ Hrun) as [_ [msg ->]]. other_class.
Qed.

Lemma recognises_getitem d key : recognises (getitem d key).
Proof.
  unfold getitem. destruct (d !! key).
  - apply recognises_ret.
  - apply recognises_raise. other_class.
Qed.

Lemma recognises_first_item items : recognises (first_item items).
Proof.
  destruct items; [apply recognises_raise; other_class | apply recognises_ret].
Qed.

Lemma recognises_check_call cmd : recognises (check_call cmd).
Proof.
  intros env st e. unfold check_call.
  destruct (run_process env cmd) as [[|p|p] output|msg]; simpl;
    try discriminate; intros [= <-]; other_class.
Qed.

Create HintDb recognise.

#[local] Hint Resolve recognises_ret recognises_logger recognises_modify
  recognises_ask recognises_get_state recognises_query recognises_commit
  recognises_getitem recognises_first_item recognises_check_call : recognise.

(** Steps through a method: binds, handlers and branches. *)
Ltac recognise :=
  repeat first
    [ solve [auto with recognise]
    | progress cbv zeta
    | apply recognises_bind; [| intros ? ]
    | apply recognises_try_except_else; [ | intros ? ? ? | intros ? ]
    | apply recognises_try_except; [ | intros ? ? ? ]
    | apply recognises_raise; other_class
    | match goal with
      | H : _ = Some ?h |- recognises ?h =>
          repeat case_match; simplify_eq
      | |- recognises (if ?b then _ else _) => destruct b
      | |- recognises (match ?x with _ => _ end) => destruct x
      end ].

Lemma recognises_acquire_master_cname self force :
  recognises (EC2Mixin.acquire_master_cname self force).
Proof. unfold EC2Mixin.acquire_master_cname, EC2Mixin._get_route53_conn. recognise. Qed.

Lemma recognises_add_to_slave_cname_pool self :
  recognises (EC2Mixin.add_to_slave_cname_pool self).
Proof. unfold EC2Mixin.add_to_slave_cname_pool, EC2Mixin._get_route53_conn. recognise. Qed.

Lemma recognises_determine_role self : recognises (BaseCluster.determine_role self).
Proof. unfold BaseCluster.determine_role. recognise. Qed.

Lemma recognises_write_recovery_conf self template_path :
  recognises (PostgresqlCluster.write_recovery_conf self template_path).
Proof. unfold PostgresqlCluster.write_recovery_conf. recognise. Qed.

Lemma recognises_configure_cron_backup self :
  recognises (PostgresqlCluster.configure_cron_backup self).
Proof. unfold PostgresqlCluster.configure_cron_backup. recognise. Qed.

#[local] Hint Resolve recognises_acquire_master_cname
  recognises_add_to_slave_cname_pool recognises_determine_role
  recognises_write_recovery_conf recognises_configure_cron_backup : recognise.

Lemma recognises_process_started (I : Infrastructure) self :
  recognises (self_acquire_master_cname self) ->
  (forall f, self_add_to_slave_cname_pool = Some f -> recognises (f self)) ->
  recognises (BaseCluster.process_started self).
Proof.
  intros Hacquire Hadd. unfold BaseCluster.process_started.
  apply recognises_bind; [auto with recognise |]. intros s.
  destruct (role s) as [r|]; [| apply recognises_raise; other_class].
  destruct (String.eqb r BaseCluster.MASTER); [exact Hacquire |].
  destruct (String.eqb r BaseCluster.SLAVE); [| apply recognises_ret].
  destruct self_add_to_slave_cname_pool as [f|] eqn:Hf.
  - apply Hadd. reflexivity.
  - apply recognises_raise. other_class.
Qed.

Lemma recognises_bind_post {A B} (P : A -> Prop) (m : M A) (f : A -> M B) :
  (forall env st a st', m env st = (Return a, st') -> P a) ->
  recognises m -> (forall a, P a -> recognises (f a)) -> recognises (m ≫= f).
Proof.
  intros Hpost Hm Hf env st e. unfold mbind, M_bind.
  destruct (m env st) as [[a|e'] st'] eqn:Hrun.
  - apply Hf. exact (Hpost env st a st' Hrun).
  - simpl. intros [= <-]. apply (Hm env st). rewrite Hrun. reflexivity.
Qed.

Lemma determine_role_range self env st r st1 :
  BaseCluster.determine_role self env st = (Return r, st1) ->
  r = BaseCluster.MASTER \/ r = BaseCluster.SLAVE.
Proof.
  unfold BaseCluster.determine_role. run.
  destruct (dns_fault env) as [f|].
  - destruct f; simpl; intros [= <- _]; auto.
  - destruct (resolve (zone st) (master_cname self) "CNAME") as [a|e]; simpl.
    + intros [= <- _]. auto.
    + destruct e as [[] | | | | | | | | | | | |]; simpl; intros [= <- _]; auto.
Qed.

Lemma get_roles_master (S : Service) :
  BaseCluster.get_roles !! BaseCluster.MASTER = Some self_prepare_master.
Proof.
  unfold BaseCluster.get_roles.
  rewrite lookup_insert_ne by discriminate. apply lookup_insert_eq.
Qed.

Lemma get_roles_slave (S : Service) :
  BaseCluster.get_roles !! BaseCluster.SLAVE = Some self_prepare_slave.
Proof. unfold BaseCluster.get_roles. apply lookup_insert_eq. Qed.

Lemma recognises_initialise (S : Service) self :
  recognises (self_prepare_master self) -> recognises (self_prepare_slave self) ->
  recognises (self_start_process self) -> recognises (self_poll_process self) ->
  recognises (BaseCluster.initialise self).
Proof.
  intros Hm Hs Hstart Hpoll. unfold BaseCluster.initialise.
  apply (recognises_bind_post
           (fun r => r = BaseCluster.MASTER \/ r = BaseCluster.SLAVE)).
  - apply determine_role_range.
  - auto with recognise.
  - intros r Hr.
    apply recognises_bind; [auto with recognise |]. intros _.
    apply recognises_bind.
    + destruct Hr as [-> | ->].
      * rewrite get_roles_master. exact Hm.
      * rewrite get_roles_slave. exact Hs.
    + intros _. apply recognises_bind; [exact Hstart | intros _; exact Hpoll].
Qed.

(** C10. [determine_role] returns MASTER or SLAVE whenever it returns, both
    are keys of [get_roles], and so [initialise] never ends in its
    "Unrecognised role" exception: not on any class whose hooks do not raise
    it themselves, and not on the classes of the repository. *)
Theorem initialise_recognises_role :
  (forall self env st r st1,
     BaseCluster.determine_role self env st = (Return r, st1) ->
     r = BaseCluster.MASTER \/ r = BaseCluster.SLAVE)
  /\ (forall (S : Service) r,
        r = BaseCluster.MASTER \/ r = BaseCluster.SLAVE ->
        is_Some (BaseCluster.get_roles !! r))
  /\ (forall (S : Service) self,
        recognises (self_prepare_master self) -> recognises (self_prepare_slave self) ->
        recognises (self_start_process self) -> recognises (self_poll_process self) ->
        recognises (BaseCluster.initialise self))
  /\ (forall self env st r,
        (@BaseCluster.initialise PostgresqlCluster.service self env st).1
          <> Raise (Exception ("Unrecognised role: " +:+ r))
        /\ (@BaseCluster.initialise BaseCluster.service self env st).1
          <> Raise (Exception ("Unrecognised role: " +:+ r))
        /\ (@BaseCluster.initialise (@ScriptCluster.service BaseCluster.infrastructure)
              self env st).1
          <> Raise (Exception ("Unrecognised role: " +:+ r))).
Proof.
  split; [exact determine_role_range |].
  split.
  { intros S r [-> | ->];
      [rewrite get_roles_master | rewrite get_roles_slave]; eauto. }
  split; [exact recognises_initialise |].
  intros self env st r.
  assert (Hpg : recognises (@BaseCluster.initialise PostgresqlCluster.service self)).
  { apply recognises_initialise; simpl.
    - unfold PostgresqlCluster.prepare_master. recognise.
    - unfold PostgresqlCluster.prepare_slave. recognise.
    - unfold PostgresqlCluster.start_process. recognise.
    - unfold PostgresqlCluster.poll_process. recognise. }
  assert (Hbase : recognises (@BaseCluster.initialise BaseCluster.service self)).
  { apply recognises_initialise; simpl; apply recognises_raise; other_class. }
  assert (Hscript : recognises (@BaseCluster.initialise
                                  (@ScriptCluster.service BaseCluster.infrastructure) self)).
  { apply recognises_initialise; simpl.
    - unfold ScriptCluster.prepare_master. recognise.
    - unfold ScriptCluster.prepare_slave. recognise.
    - unfold ScriptCluster.start_process. recognise.
    - unfold ScriptCluster.poll_process. apply recognises_process_started; simpl.
      + apply recognises_raise. other_class.
      + intros f [=]. }
  repeat split; intros Hraise.
  - apply (Hpg env st _ Hraise). exists r. reflexivity.
  - apply (Hbase env st _ Hraise). exists r. reflexivity.
  - apply (Hscript env st _ Hraise). exists r. reflexivity.
Qed.

(** * Further properties of the code *)

(** ** [acquire_master_cname] beyond the two claimed cases *)

Lemma records_named_snoc_other name z r :
  rr_name r <> name -> records_named name (z ++ [r]) = records_named name z.
Proof.
  intros Hne. rewrite records_named_app. simpl.
  rewrite bool_decide_eq_false_2 by exact Hne. apply app_nil_r.
Qed.

Lemma records_named_filter_other name z r :
  rr_name r <> name ->
  records_named name (List.filter (fun x => negb (bool_decide (x = r))) z)
  = records_named name z.
Proof.
  intros Hne. unfold records_named.
  induction z as [|x z IH]; [reflexivity |]. simpl.
  destruct (bool_decide (x = r)) eqn:Hx; simpl.
  - apply bool_decide_eq_true in Hx. subst x.
    rewrite bool_decide_eq_false_2 by exact Hne. exact IH.
  - destruct (bool_decide (rr_name x = name)); [f_equal |]; exact IH.
Qed.

(** X4. [acquire_master_cname], whatever it is given and however it ends,
    leaves the record sets of every other name as they were. *)
Theorem acquire_touches_master_name_only (self : Self) (force : bool) (env : Env)
    (st : State) (name : string) :
  name <> master_cname self ->
  records_named name (zone (EC2Mixin.acquire_master_cname self force env st).2)
  = records_named name (zone st).
Proof.
  intros Hne.
  unfold EC2Mixin.acquire_master_cname, EC2Mixin._get_route53_conn, getitem,
    first_item, commit.
  run.
  repeat (case_match; simpl; simplify_eq);
    rewrite ?records_named_snoc_other, ?records_named_filter_other
      by (simpl; congruence);
    reflexivity.
Qed.

Lemma acquire_touches_master_name_only_witness :
  let st := Sample.state_with [Sample.pool_record "i-1" "ec2-2.example.com";
                               Sample.master_record "ec2-1.example.com"] in
  records_named "slave.vagranttest.example.com"
    (zone (EC2Mixin.acquire_master_cname Sample.self true Sample.env st).2)
  = [Sample.pool_record "i-1" "ec2-2.example.com"].
Proof.
  intros st.
  apply (acquire_touches_master_name_only Sample.self true Sample.env st
           "slave.vagranttest.example.com").
  discriminate.
Defined.

(** Case analysis on everything a run branches on. *)
Ltac cases := repeat (case_match; unfold mret, M_ret in *; simpl in *; simplify_eq).

Lemma acquire_on_absent (self : Self) (force : bool) (env : Env) (st : State) hostname :
  dns_fault env = None -> route53_fault env = None ->
  metadata self !! "public-hostname" = Some hostname ->
  records_named (master_cname self) (zone st) = [] ->
  exists st1,
    EC2Mixin.acquire_master_cname self force env st = (Return tt, st1)
    /\ zone st1 = zone st ++ [primary_binding self env hostname].
Proof.
  intros Hdns Hr53 Hhost Habs.
  unfold EC2Mixin.acquire_master_cname, EC2Mixin._get_route53_conn, getitem. run.
  rewrite Hdns, (resolve_nxdomain _ _ _ Habs). simpl.
  rewrite Hhost. simpl.
  erewrite commit_applies;
    [| exact Hr53
     | apply (create_on_absent (master_cname self)); [exact Habs | reflexivity]].
  eexists. split; reflexivity.
Qed.

Lemma primary_binding_is_binding (self other : Self) env z target :
  master_cname other = master_cname self ->
  binding_exists (master_cname other) (z ++ [primary_binding self env target]).
Proof.
  intros Hsame. exists (primary_binding self env target).
  split; [apply in_or_app; right; left; reflexivity |].
  simpl. repeat split; [congruence | discriminate].
Qed.

(** X1. On a zone without a record of the master name, a claim succeeds with
    or without [force] and appends the CNAME to this host; from then on any
    node of the cluster resolves the slave role, and an unforced claim by any
    node is refused without changing the zone. *)
Theorem first_claim_makes_later_nodes_slaves (self other : Self) (force : bool)
    (env : Env) (st : State) hostname :
  dns_fault env = None -> route53_fault env = None ->
  metadata self !! "public-hostname" = Some hostname ->
  records_named (master_cname self) (zone st) = [] ->
  master_cname other = master_cname self ->
  exists st1,
    EC2Mixin.acquire_master_cname self force env st = (Return tt, st1)
    /\ zone st1 = zone st ++ [primary_binding self env hostname]
    /\ (BaseCluster.determine_role other env st1).1 = Return BaseCluster.SLAVE
    /\ (EC2Mixin.acquire_master_cname other false env st1).1
       = Raise (Exception ("CNAME " +:+ master_cname other
                           +:+ " exists and force is False - not taking the CNAME"))
    /\ zone (EC2Mixin.acquire_master_cname other false env st1).2 = zone st1.
Proof.
  intros Hdns Hr53 Hhost Habs Hsame.
  destruct (acquire_on_absent self force env st hostname Hdns Hr53 Hhost Habs)
    as (st1 & Hrun & Hz).
  exists st1. split; [exact Hrun |]. split; [exact Hz |].
  destruct (binding_resolves (master_cname other) (zone st1)) as (v & items & Hres).
  { rewrite Hz. apply primary_binding_is_binding. exact Hsame. }
  split; [| split].
  - unfold BaseCluster.determine_role. run. rewrite Hdns, Hres. reflexivity.
  - unfold EC2Mixin.acquire_master_cname. run. rewrite Hdns, Hres. reflexivity.
  - unfold EC2Mixin.acquire_master_cname. run. rewrite Hdns, Hres. reflexivity.
Qed.

Lemma first_claim_makes_later_nodes_slaves_witness :
  exists st1,
    EC2Mixin.acquire_master_cname Sample.self false Sample.env (Sample.state_with [])
    = (Return tt, st1)
    /\ (BaseCluster.determine_role Sample.self Sample.env st1).1
       = Return BaseCluster.SLAVE.
Proof.
  destruct (first_claim_makes_later_nodes_slaves Sample.self Sample.self false
              Sample.env (Sample.state_with [])
              "instance12346.vagranttest.example.com")
    as (st1 & Hrun & _ & Hrole & _).
  - reflexivity.
  - reflexivity.
  - vm_compute. reflexivity.
  - reflexivity.
  - reflexivity.
  - exists st1. split; assumption.
Defined.

(** X2. A resolver failure other than NXDOMAIN ends [acquire_master_cname]
    with that exception before anything else happens, with or without
    [force]: the state is exactly the one it started from. *)
Theorem acquire_lookup_failure (self : Self) (force : bool) (env : Env) (st : State) e :
  (dns_resolver_query (master_cname self) "CNAME" env st).1 = Raise e ->
  e <> DnsException NXDOMAIN ->
  EC2Mixin.acquire_master_cname self force env st = (Raise e, st).
Proof.
  unfold EC2Mixin.acquire_master_cname. run.
  destruct (dns_fault env) as [f|]; simpl.
  - intros [= <-] Hne. destruct f; simpl; congruence.
  - destruct (resolve (zone st) (master_cname self) "CNAME") as [a|e']; simpl;
      [discriminate |].
    intros [= <-] Hne.
    destruct e' as [[] | | | | | | | | | | | |]; simpl; congruence.
Qed.

Lemma acquire_lookup_failure_witness :
  let env := {| settings := Sample.the_settings;
                dns_fault := Some NoNameservers;
                route53_fault := None;
                pg_connect := Sample.unreachable;
                run_process := Sample.succeeds;
                read_file := fun _ => None;
                writable := fun _ => true;
                format_template := fun t _ => inl t |} in
  let st := Sample.state_with [Sample.master_record "ec2-1.example.com"] in
  EC2Mixin.acquire_master_cname Sample.self true env st
  = (Raise (DnsException NoNameservers), st).
Proof.
  intros env st.
  apply (acquire_lookup_failure Sample.self true env st (DnsException NoNameservers)).
  - reflexivity.
  - discriminate.
Defined.

(** X3. Without a ['public-hostname'] in the metadata no claim goes through:
    the call raises and the zone is unchanged; where it gets as far as
    building the record (no record of the name, resolver answering), the
    exception is the [KeyError] for that key. *)
Theorem acquire_without_hostname (self : Self) (force : bool) (env : Env) (st : State) :
  metadata self !! "public-hostname" = None ->
  zone (EC2Mixin.acquire_master_cname self force env st).2 = zone st
  /\ (EC2Mixin.acquire_master_cname self force env st).1 <> Return tt
  /\ (dns_fault env = None -> records_named (master_cname self) (zone st) = [] ->
      (EC2Mixin.acquire_master_cname self force env st).1
      = Raise (LookupKeyError "public-hostname")).
Proof.
  intros Hmissing. split; [| split].
  - unfold EC2Mixin.acquire_master_cname, EC2Mixin._get_route53_conn, getitem,
      first_item.
    run. rewrite Hmissing. cases; reflexivity.
  - unfold EC2Mixin.acquire_master_cname, EC2Mixin._get_route53_conn, getitem,
      first_item.
    run. rewrite Hmissing. cases; discriminate.
  - intros Hdns Habs.
    unfold EC2Mixin.acquire_master_cname, EC2Mixin._get_route53_conn, getitem.
    run. rewrite Hdns, (resolve_nxdomain _ _ _ Habs). simpl.
    rewrite Hmissing. reflexivity.
Qed.

Lemma acquire_without_hostname_witness :
  let nameless : Self := {| metadata := <["instance-id" := "i-12346"]> ∅;
                            self_settings := ∅;
                            master_cname := "master.vagranttest.example.com";
                            slave_cname := "slave.vagranttest.example.com" |} in
  (EC2Mixin.acquire_master_cname nameless true Sample.env (Sample.state_with [])).1
  = Raise (LookupKeyError "public-hostname").
Proof.
  intros nameless.
  apply (acquire_without_hostname nameless true Sample.env (Sample.state_with []));
    reflexivity.
Defined.

(** X5. [acquire_master_cname] has no handler around its commit: a server
    error raised there ends the call as it is, whatever its message, and the
    zone stays unchanged. *)
Theorem acquire_server_error_propagates (self : Self) (force : bool) (env : Env)
    (st : State) hostname msg :
  (dns_resolver_query (master_cname self) "CNAME" env st).1
    = Raise (DnsException NXDOMAIN) ->
  metadata self !! "public-hostname" = Some hostname ->
  route53_fault env = Some msg ->
  (EC2Mixin.acquire_master_cname self force env st).1 = Raise (DNSServerError msg)
  /\ zone (EC2Mixin.acquire_master_cname self force env st).2 = zone st.
Proof.
  intros Hq Hhost Hr53. revert Hq.
  unfold EC2Mixin.acquire_master_cname, EC2Mixin._get_route53_conn, getitem, commit.
  run.
  destruct (dns_fault env) as [f|]; simpl.
  - intros [= ->]. simpl. rewrite Hhost. simpl. rewrite Hr53. split; reflexivity.
  - destruct (resolve (zone st) (master_cname self) "CNAME") as [a|e]; simpl;
      [discriminate |].
    intros [= ->]. simpl. rewrite Hhost. simpl. rewrite Hr53. split; reflexivity.
Qed.

Lemma acquire_server_error_propagates_witness :
  let env := {| settings := Sample.the_settings;
                dns_fault := None;
                route53_fault := Some "Rate exceeded";
                pg_connect := Sample.unreachable;
                run_process := Sample.succeeds;
                read_file := fun _ => None;
                writable := fun _ => true;
                format_template := fun t _ => inl t |} in
  (EC2Mixin.acquire_master_cname Sample.self false env (Sample.state_with [])).1
  = Raise (DNSServerError "Rate exceeded").
Proof.
  intros env.
  apply (acquire_server_error_propagates Sample.self false env (Sample.state_with [])
           "instance12346.vagranttest.example.com" "Rate exceeded").
  - reflexivity.
  - vm_compute. reflexivity.
  - reflexivity.
Defined.

(** X6. When the resolver says NXDOMAIN although the zone already holds a
    record with the key of the master CNAME, the CREATE is rejected: the call
    raises the "it already exists" server error, which
    [add_to_slave_cname_pool] would swallow and this method does not, and
    the existing record stays. *)
Theorem acquire_on_stale_nxdomain (self : Self) (force : bool) (env : Env)
    (st : State) hostname :
  dns_fault env = Some NXDOMAIN -> route53_fault env = None ->
  metadata self !! "public-hostname" = Some hostname ->
  existsb (same_key (primary_binding self env hostname)) (zone st) = true ->
  exists msg,
    (EC2Mixin.acquire_master_cname self force env st).1 = Raise (DNSServerError msg)
    /\ endswith msg "it already exists" = true
    /\ zone (EC2Mixin.acquire_master_cname self force env st).2 = zone st.
Proof.
  intros Hdns Hr53 Hhost Hex.
  destruct (create_already_exists (zone st) (primary_binding self env hostname) Hex)
    as (msg & Happ & Hend).
  exists msg.
  unfold EC2Mixin.acquire_master_cname, EC2Mixin._get_route53_conn, getitem.
  run. rewrite Hdns. simpl. rewrite Hhost. simpl.
  erewrite commit_refuses; [| exact Hr53 | exact Happ].
  simpl. auto.
Qed.

Lemma acquire_on_stale_nxdomain_witness :
  let env := {| settings := Sample.the_settings;
                dns_fault := Some NXDOMAIN;
                route53_fault := None;
                pg_connect := Sample.unreachable;
                run_process := Sample.succeeds;
                read_file := fun _ => None;
                writable := fun _ => true;
                format_template := fun t _ => inl t |} in
  let st := Sample.state_with [Sample.master_record "ec2-1.example.com"] in
  exists msg,
    (EC2Mixin.acquire_master_cname Sample.self false env st).1
      = Raise (DNSServerError msg)
    /\ endswith msg "it already exists" = true
    /\ zone (EC2Mixin.acquire_master_cname Sample.self false env st).2 = zone st.
Proof.
  intros env st.
  apply (acquire_on_stale_nxdomain Sample.self false env st
           "instance12346.vagranttest.example.com").
  - reflexivity.
  - reflexivity.
  - vm_compute. reflexivity.
  - vm_compute. reflexivity.
Defined.

(** ** [add_to_slave_cname_pool] beyond the claimed cases *)

(** X7. Registration only ever appends: whatever the environment does, the
    zone afterwards is the zone before, or the zone before followed by the
    one weighted record of this instance, and then the call has returned
    normally. No existing record is removed or rewritten. *)
Theorem add_to_pool_only_appends (self : Self) (env : Env) (st : State) :
  let out := EC2Mixin.add_to_slave_cname_pool self env st in
  zone out.2 = zone st
  \/ exists instance_id hostname,
       metadata self !! "instance-id" = Some instance_id
       /\ metadata self !! "public-hostname" = Some hostname
       /\ zone out.2 = zone st ++ [pool_entry self env instance_id hostname]
       /\ out.1 = Return tt.
Proof.
  unfold EC2Mixin.add_to_slave_cname_pool, EC2Mixin._get_route53_conn, getitem, commit.
  run.
  destruct (metadata self !! "instance-id") as [i|] eqn:Hi; simpl; [| left; reflexivity].
  destruct (metadata self !! "public-hostname") as [h|] eqn:Hh; simpl;
    [| left; reflexivity].
  destruct (route53_fault env) as [msg|]; simpl.
  - destruct (endswith msg "it already exists"); left; reflexivity.
  - destruct (existsb _ (zone st)); simpl.
    + destruct (endswith _ "it already exists"); left; reflexivity.
    + right. exists i, h. repeat split.
Qed.

(** X8. A missing metadata key stops the registration before Route53 is
    asked: without ['instance-id'] the state is exactly the one it started
    from; with it but without ['public-hostname'] one line has been logged
    and the zone is unchanged. *)
Theorem add_to_pool_missing_key (self : Self) (env : Env) (st : State) :
  (metadata self !! "instance-id" = None ->
   EC2Mixin.add_to_slave_cname_pool self env st
   = (Raise (LookupKeyError "instance-id"), st))
  /\ (forall instance_id,
        metadata self !! "instance-id" = Some instance_id ->
        metadata self !! "public-hostname" = None ->
        EC2Mixin.add_to_slave_cname_pool self env st
        = (Raise (LookupKeyError "public-hostname"),
           set_log (log st ++ [(INFO, "Adding " +:+ instance_id
                                      +:+ " to CNAME pool for " +:+ slave_cname self)]) st)).
Proof.
  unfold EC2Mixin.add_to_slave_cname_pool, EC2Mixin._get_route53_conn, getitem.
  split.
  - intros Hi. run. rewrite Hi. reflexivity.
  - intros i Hi Hh. run. rewrite Hi. simpl. rewrite Hh. reflexivity.
Qed.

Lemma add_to_pool_missing_key_witness :
  let anonymous : Self := {| metadata := <["public-hostname" := "ec2-2.example.com"]> ∅;
                             self_settings := ∅;
                             master_cname := "master.vagranttest.example.com";
                             slave_cname := "slave.vagranttest.example.com" |} in
  EC2Mixin.add_to_slave_cname_pool anonymous Sample.env (Sample.state_with [])
  = (Raise (LookupKeyError "instance-id"), Sample.state_with []).
Proof.
  intros anonymous.
  apply (add_to_pool_missing_key anonymous Sample.env (Sample.state_with [])).
  reflexivity.
Defined.

Lemma add_to_pool_on_fresh (self : Self) (env : Env) (st : State) instance_id hostname :
  route53_fault env = None ->
  metadata self !! "instance-id" = Some instance_id ->
  metadata self !! "public-hostname" = Some hostname ->
  existsb (same_key (pool_entry self env instance_id hostname)) (zone st) = false ->
  exists st1,
    EC2Mixin.add_to_slave_cname_pool self env st = (Return tt, st1)
    /\ zone st1 = zone st ++ [pool_entry self env instance_id hostname]
    /\ crontab st1 = crontab st /\ files st1 = files st
    /\ processes st1 = processes st /\ role st1 = role st.
Proof.
  intros Hr53 Hid Hhost Hfresh.
  rewrite (add_to_pool_by_commit self env st instance_id hostname Hid Hhost).
  cbv zeta.
  erewrite commit_applies; [| exact Hr53 | simpl; rewrite Hfresh; reflexivity].
  eexists. repeat split.
Qed.

(** X9. Two instances with different identifiers can both join the pool of
    one slave name: each registration returns normally and the two weighted
    records stand side by side after the records that were there. *)
Theorem two_instances_share_the_pool (a b : Self) (env : Env) (st : State)
    id_a host_a id_b host_b :
  route53_fault env = None ->
  metadata a !! "instance-id" = Some id_a ->
  metadata a !! "public-hostname" = Some host_a ->
  metadata b !! "instance-id" = Some id_b ->
  metadata b !! "public-hostname" = Some host_b ->
  id_a <> id_b ->
  existsb (same_key (pool_entry a env id_a host_a)) (zone st) = false ->
  existsb (same_key (pool_entry b env id_b host_b)) (zone st) = false ->
  exists st1 st2,
    EC2Mixin.add_to_slave_cname_pool a env st = (Return tt, st1)
    /\ EC2Mixin.add_to_slave_cname_pool b env st1 = (Return tt, st2)
    /\ zone st2 = zone st ++ [pool_entry a env id_a host_a; pool_entry b env id_b host_b].
Proof.
  intros Hr53 Hia Hha Hib Hhb Hne Hfa Hfb.
  destruct (add_to_pool_on_fresh a env st id_a host_a Hr53 Hia Hha Hfa)
    as (st1 & Hrun1 & Hz1 & _).
  destruct (add_to_pool_on_fresh b env st1 id_b host_b Hr53 Hib Hhb)
    as (st2 & Hrun2 & Hz2 & _).
  { rewrite Hz1, existsb_app, Hfb. simpl. rewrite orb_false_r.
    unfold same_key. simpl.
    rewrite (bool_decide_eq_false_2 (Some id_b = Some id_a)) by congruence.
    apply andb_false_r. }
  exists st1, st2. split; [exact Hrun1 |]. split; [exact Hrun2 |].
  rewrite Hz2, Hz1, <- app_assoc. reflexivity.
Qed.

Lemma two_instances_share_the_pool_witness :
  let b : Self := {| metadata := <["public-hostname" := "ec2-2.example.com"]>
                                   (<["instance-id" := "i-2"]> ∅);
                     self_settings := ∅;
                     master_cname := "master.vagranttest.example.com";
                     slave_cname := "slave.vagranttest.example.com" |} in
  exists st1 st2,
    EC2Mixin.add_to_slave_cname_pool Sample.self Sample.env (Sample.state_with [])
    = (Return tt, st1)
    /\ EC2Mixin.add_to_slave_cname_pool b Sample.env st1 = (Return tt, st2)
    /\ zone st2
       = [Sample.pool_record "i-12346" "instance12346.vagranttest.example.com";
          Sample.pool_record "i-2" "ec2-2.example.com"].
Proof.
  intros b.
  apply (two_instances_share_the_pool Sample.self b Sample.env (Sample.state_with [])
           "i-12346" "instance12346.vagranttest.example.com" "i-2" "ec2-2.example.com").
  - reflexivity.
  - vm_compute. reflexivity.
  - vm_compute. reflexivity.
  - vm_compute. reflexivity.
  - vm_compute. reflexivity.
  - discriminate.
  - reflexivity.
  - reflexivity.
Defined.

(** ** [determine_role] and the hooks around it *)

(** X10. [determine_role] only reads: however the query ends, the state
    afterwards is the state before with log lines added. *)
Theorem determine_role_reads_only (self : Self) (env : Env) (st : State) :
  exists lines,
    (BaseCluster.determine_role self env st).2 = set_log (log st ++ lines) st.
Proof.
  unfold BaseCluster.determine_role. run.
  destruct (dns_fault env) as [f|].
  - destruct f; simpl; eexists; try rewrite <- app_assoc; reflexivity.
  - destruct (resolve (zone st) (master_cname self) "CNAME") as [a|e]; simpl.
    + eexists. rewrite <- app_assoc. reflexivity.
    + destruct e as [[] | | | | | | | | | | | |]; simpl; eexists;
        try rewrite <- app_assoc; reflexivity.
Qed.

(** ** [promote] and its guard beyond the claimed cases *)

Lemma check_output_run (env : Env) (st : State) (cmd : list string) :
  processes (check_output cmd env st).2 = processes st ++ [cmd]
  /\ zone (check_output cmd env st).2 = zone st
  /\ crontab (check_output cmd env st).2 = crontab st.
Proof.
  unfold check_output. destruct (run_process env cmd) as [[|p|p] output|msg];
    repeat split.
Qed.

Lemma promote_reaches_command (self : Self) (force : bool) (env : Env) (st : State) :
  guard_passes self force env st ->
  processes (PostgresqlCluster.promote self force env st).2
  = processes st ++ [py_split (promote_cmd env)].
Proof.
  unfold guard_passes. intros Hreach.
  destruct (check_master_log_only self env st) as [l Hl].
  destruct (PostgresqlCluster.check_master self env st) as [r s1] eqn:Hcheck.
  simpl in Hreach, Hl. subst s1.
  unfold PostgresqlCluster.promote, PostgresqlCluster.configure_cron_backup, check_output.
  run. rewrite Hcheck. fold (promote_cmd env).
  destruct r as [[|]|e]; simpl.
  - rewrite (Hreach eq_refl). simpl. cases; reflexivity.
  - cases; reflexivity.
  - rewrite Hreach. simpl. cases; reflexivity.
Qed.

(** X11. Past the guard, [promote] runs the promote command exactly once,
    whatever the command then does. *)
Theorem promote_runs_command_once (self : Self) (force : bool) (env : Env) (st : State) :
  guard_passes self force env st ->
  processes (PostgresqlCluster.promote self force env st).2
  = processes st ++ [py_split (promote_cmd env)].
Proof. exact (promote_reaches_command self force env st). Qed.

Lemma promote_runs_command_once_witness :
  let env := Sample.env_with (fun _ => inl (Sample.text_server false)) Sample.succeeds in
  let st := Sample.state_with [Sample.master_record "ec2-1.example.com"] in
  processes (PostgresqlCluster.promote Sample.self true env st).2
  = [["/usr/lib/postgresql/9.1/bin/pg_ctl"; "-D"; "/var/lib/postgresql/9.1/main"; "promote"]].
Proof.
  intros env st.
  apply (promote_runs_command_once Sample.self true env st).
  vm_compute. reflexivity.
Defined.

(** X12. When the promote command fails in any other way (non-zero exit,
    output not ending with the standby message), [promote] prints the
    output and raises the [CalledProcessError] itself, with return code,
    command line and output; the backup cron job is not set up. *)
Theorem promote_command_failure_surfaces (self : Self) (force : bool) (env : Env)
    (st : State) code output :
  guard_passes self force env st ->
  run_process env (py_split (promote_cmd env)) = Exited code output ->
  code <> 0 ->
  endswith output ("server is not in standby mode" +:+ LF) = false ->
  let out := PostgresqlCluster.promote self force env st in
  out.1 = Raise (CalledProcessError code (py_split (promote_cmd env)) output)
  /\ last (stdout out.2) = Some output
  /\ crontab out.2 = crontab st.
Proof.
  unfold guard_passes. intros Hreach Hrun Hcode Hend.
  destruct (check_master_log_only self env st) as [l Hl].
  destruct (PostgresqlCluster.check_master self env st) as [r s1] eqn:Hcheck.
  simpl in Hreach, Hl. subst s1.
  assert (Hcmd : forall s,
    check_output (py_split (promote_cmd env)) env s
    = (Raise (CalledProcessError code (py_split (promote_cmd env)) output),
       set_processes (processes s ++ [py_split (promote_cmd env)]) s)).
  { intros s. unfold check_output. rewrite Hrun.
    destruct code; [congruence | reflexivity | reflexivity]. }
  unfold PostgresqlCluster.promote. run. rewrite Hcheck.
  fold (promote_cmd env).
  destruct r as [[|]|e]; simpl.
  - rewrite (Hreach eq_refl). simpl. rewrite Hcmd. simpl. rewrite Hend. simpl.
    rewrite last_snoc. repeat split.
  - rewrite Hcmd. simpl. rewrite Hend. simpl. rewrite last_snoc. repeat split.
  - rewrite Hreach. simpl. rewrite Hcmd. simpl. rewrite Hend. simpl.
    rewrite last_snoc. repeat split.
Qed.

Lemma promote_command_failure_surfaces_witness :
  let env := Sample.env_with Sample.unreachable
               (fun _ => Exited 1 "pg_ctl: PID file does not exist") in
  let st := Sample.state_with [] in
  (PostgresqlCluster.promote Sample.self false env st).1
  = Raise (CalledProcessError 1
             ["/usr/lib/postgresql/9.1/bin/pg_ctl"; "-D"; "/var/lib/postgresql/9.1/main";
              "promote"]
             "pg_ctl: PID file does not exist").
Proof.
  intros env st.
  apply (promote_command_failure_surfaces Sample.self false env st 1
           "pg_ctl: PID file does not exist").
  - vm_compute. intros H; discriminate H.
  - reflexivity.
  - discriminate.
  - vm_compute. reflexivity.
Defined.

(** X13. [promote] never touches the naming records: on every path, refused,
    failed or successful, forced or not, the zone is the one it started
    with, and so are the files and the role of the instance. *)
Theorem promote_leaves_zone_alone (self : Self) (force : bool) (env : Env) (st : State) :
  let out := PostgresqlCluster.promote self force env st in
  zone out.2 = zone st /\ files out.2 = files st /\ role out.2 = role st.
Proof.
  intros out. subst out.
  destruct (check_master_log_only self env st) as [l Hl].
  destruct (PostgresqlCluster.check_master self env st) as [r s1] eqn:Hcheck.
  simpl in Hl. subst s1.
  unfold PostgresqlCluster.promote, PostgresqlCluster.configure_cron_backup, check_output.
  run. rewrite Hcheck.
  destruct r as [[|]|e]; simpl; cases; repeat split.
Qed.

(** X14. When the promote command exits with 0, [promote] returns normally
    and the crontab afterwards holds a job with the backup command: the one
    that was already there, or else a new last entry. *)
Theorem promote_success_schedules_backup (self : Self) (force : bool) (env : Env)
    (st : State) output :
  guard_passes self force env st ->
  run_process env (py_split (promote_cmd env)) = Exited 0 output ->
  let out := PostgresqlCluster.promote self force env st in
  out.1 = Return tt
  /\ crontab out.2 = (if has_backup_job (crontab st) then crontab st
                      else crontab st ++ [backup_job])
  /\ has_backup_job (crontab out.2) = true.
Proof.
  unfold guard_passes. intros Hreach Hrun.
  destruct (check_master_log_only self env st) as [l Hl].
  destruct (PostgresqlCluster.check_master self env st) as [r s1] eqn:Hcheck.
  simpl in Hreach, Hl. subst s1.
  assert (Hcron : forall s, crontab s = crontab st ->
    let o := PostgresqlCluster.configure_cron_backup self env s in
    o.1 = Return tt
    /\ crontab o.2 = (if has_backup_job (crontab st) then crontab st
                      else crontab st ++ [backup_job])
    /\ has_backup_job (crontab o.2) = true).
  { intros s Hs. unfold PostgresqlCluster.configure_cron_backup. run. rewrite Hs.
    fold backup_cmd. fold (has_backup_job (crontab st)).
    destruct (has_backup_job (crontab st)) eqn:Hhas; simpl.
    - rewrite Hs. auto.
    - repeat split. unfold has_backup_job. rewrite existsb_app. simpl.
      apply orb_true_r. }
  assert (Hcmd : forall s,
    check_output (py_split (promote_cmd env)) env s
    = (Return output, set_processes (processes s ++ [py_split (promote_cmd env)]) s)).
  { intros s. unfold check_output. rewrite Hrun. reflexivity. }
  unfold PostgresqlCluster.promote. run. rewrite Hcheck.
  fold (promote_cmd env).
  destruct r as [[|]|e]; simpl.
  - rewrite (Hreach eq_refl). simpl. rewrite Hcmd. apply Hcron. reflexivity.
  - rewrite Hcmd. apply Hcron. reflexivity.
  - rewrite Hreach. simpl. rewrite Hcmd. apply Hcron. reflexivity.
Qed.

Lemma promote_success_schedules_backup_witness :
  let st := Sample.state_with [Sample.master_record "ec2-1.example.com"] in
  (PostgresqlCluster.promote Sample.self false Sample.env st).1 = Return tt
  /\ crontab (PostgresqlCluster.promote Sample.self false Sample.env st).2 = [backup_job].
Proof.
  intros st.
  destruct (promote_success_schedules_backup Sample.self false Sample.env st
              "server promoting") as (Hret & Hcron & _).
  - vm_compute. intros H; discriminate H.
  - reflexivity.
  - split; [exact Hret | exact Hcron].
Defined.

(** X15. [check_master] compares what [fetchone] returns with the strings
    ['t'] and ['1']. Whenever every connection hands back rows that are not
    bare strings, it never answers True, whatever the remote server is, so
    [promote] never refuses: with [force=False] too the promote command is
    run whenever [check_master] answers at all. *)
Theorem guard_never_fires_on_tuple_rows (self : Self) (env : Env) (st : State) :
  (forall conn_str conn, pg_connect env conn_str = inl conn -> rows_are_tuples conn) ->
  (PostgresqlCluster.check_master self env st).1 <> Return true
  /\ (forall answer,
        (PostgresqlCluster.check_master self env st).1 = Return answer ->
        processes (PostgresqlCluster.promote self false env st).2
        = processes st ++ [py_split (promote_cmd env)]).
Proof.
  intros Hrows.
  assert (Hnever : (PostgresqlCluster.check_master self env st).1 <> Return true).
  { unfold PostgresqlCluster.check_master, PostgresqlCluster._get_conn,
      PostgresqlCluster.execute, PostgresqlCluster.fetchone, PostgresqlCluster.cursor.
    run.
    destruct (pg_connect env _) as [conn|e] eqn:Hpg; simpl.
    - pose proof (Hrows _ _ Hpg) as Hconn.
      destruct (cur_execute conn "SELECT pg_is_in_recovery()"); simpl; [discriminate |].
      destruct (py_eq_str _ "t"); simpl; [discriminate |].
      destruct (cur_execute conn "SELECT 1"); simpl; [discriminate |].
      destruct (cur_fetchone conn "SELECT 1") as [|[]|] eqn:Hrow; simpl;
        try discriminate.
      exfalso. exact (Hconn _ _ Hrow).
    - destruct e; simpl; discriminate. }
  split; [exact Hnever |].
  intros answer Hanswer.
  apply promote_reaches_command. unfold guard_passes. rewrite Hanswer.
  intros ->. congruence.
Qed.

Lemma guard_never_fires_on_tuple_rows_witness :
  let env := Sample.env_with (fun _ => inl (Sample.tuple_server false)) Sample.succeeds in
  let st := Sample.state_with [Sample.master_record "ec2-1.example.com"] in
  (PostgresqlCluster.check_master Sample.self env st).1 <> Return true.
Proof.
  intros env st.
  apply (guard_never_fires_on_tuple_rows Sample.self env st).
  intros conn_str conn [= <-] statement s. simpl.
  destruct (String.eqb statement "SELECT pg_is_in_recovery()"); discriminate.
Defined.

(** X16. [check_slave] has no handler: when the local connection cannot be
    opened, the exception of [psycopg2.connect] ends the call, where
    [check_master] would have answered False. With rows that are not bare
    strings it answers False although the server is in recovery. *)
Theorem check_slave_connection_failure (self : Self) (env : Env) (st : State) :
  (forall e,
     pg_connect env EmptyString = inr e ->
     (PostgresqlCluster.check_slave self env st).1 = Raise (Psycopg2Error e))
  /\ (forall conn,
        pg_connect env EmptyString = inl conn -> rows_are_tuples conn ->
        (PostgresqlCluster.check_slave self env st).1 <> Return true).
Proof.
  unfold PostgresqlCluster.check_slave, PostgresqlCluster._get_conn,
    PostgresqlCluster.execute, PostgresqlCluster.fetchone, PostgresqlCluster.cursor.
  run. split.
  - intros e ->. reflexivity.
  - intros conn -> Hconn. simpl.
    destruct (cur_execute conn "SELECT pg_is_in_recovery()"); simpl; [discriminate |].
    destruct (cur_fetchone conn "SELECT pg_is_in_recovery()") as [|[]|] eqn:Hrow;
      simpl; try discriminate.
    exfalso. exact (Hconn _ _ Hrow).
Qed.

Lemma check_slave_connection_failure_witness :
  (PostgresqlCluster.check_slave Sample.self Sample.env (Sample.state_with [])).1
  = Raise (Psycopg2Error (OperationalError "could not connect to server")).
Proof.
  apply (check_slave_connection_failure Sample.self Sample.env (Sample.state_with [])).
  reflexivity.
Defined.

(** ** The local set-up of a PostgreSQL node *)

(** X17. [configure_cron_backup] always returns, removes and rewrites no
    job, and leaves a crontab that holds the backup command; run again, it
    changes nothing more, so the job it adds is never added twice. *)
Theorem configure_cron_backup_idempotent (self : Self) (env : Env) (st : State) :
  let once := PostgresqlCluster.configure_cron_backup self env st in
  let twice := PostgresqlCluster.configure_cron_backup self env once.2 in
  once.1 = Return tt
  /\ crontab once.2 = (if has_backup_job (crontab st) then crontab st
                       else crontab st ++ [backup_job])
  /\ has_backup_job (crontab once.2) = true
  /\ twice.1 = Return tt
  /\ crontab twice.2 = crontab once.2.
Proof.
  unfold PostgresqlCluster.configure_cron_backup. run.
  fold backup_cmd. fold (has_backup_job (crontab st)).
  destruct (has_backup_job (crontab st)) eqn:Hhas; simpl.
  - fold (has_backup_job (crontab st)). rewrite Hhas. simpl. repeat split; try exact Hhas.
  - assert (Hnow : has_backup_job (crontab st ++ [backup_job]) = true).
    { unfold has_backup_job. rewrite existsb_app. simpl. apply orb_true_r. }
    fold backup_job. fold (has_backup_job (crontab st ++ [backup_job])).
    rewrite Hnow. simpl. repeat split; try exact Hnow.
Qed.

Lemma file_content_written path content fs :
  file_content path (PostgresqlCluster.write_file path content fs) = Some content.
Proof.
  unfold file_content, PostgresqlCluster.write_file. simpl.
  rewrite String.eqb_refl. reflexivity.
Qed.

Lemma file_content_other path other content fs :
  other <> path ->
  file_content other (PostgresqlCluster.write_file path content fs)
  = file_content other fs.
Proof.
  intros Hne. unfold file_content, PostgresqlCluster.write_file. simpl.
  assert (Hp : String.eqb path other = false) by (apply String.eqb_neq; congruence).
  rewrite Hp.
  induction fs as [|f fs IH]; [reflexivity |]. simpl.
  destruct (String.eqb f.1 path) eqn:Hf; simpl.
  - apply String.eqb_eq in Hf.
    assert (Ho : String.eqb f.1 other = false) by (apply String.eqb_neq; congruence).
    rewrite Ho. exact IH.
  - destruct (String.eqb f.1 other); [reflexivity | exact IH].
Qed.

(** X18. [write_recovery_conf] reads the template before it opens the
    target: a missing template raises [IOError] and no file changes. Then the
    target is opened for writing: when that fails, [IOError] is raised and
    no file changes; when it succeeds, the target is empty from then on, so
    a formatting error leaves it empty, and on success it holds the
    formatted text. The mapping handed to the formatting binds
    [master_cname] to the instance's master CNAME whatever metadata and
    settings say, and a key of the settings wins over the same key of the
    metadata. No other file and no naming record is touched. *)
Theorem write_recovery_conf_outcomes (self : Self) (template_path : string)
    (env : Env) (st : State) :
  let target := RECOVERY_FILENAME (settings env) in
  let out := PostgresqlCluster.write_recovery_conf self template_path env st in
  (read_file env template_path = None ->
   out.1 = Raise (IOError template_path) /\ files out.2 = files st)
  /\ (forall template,
        read_file env template_path = Some template ->
        writable env target = false ->
        out.1 = Raise (IOError target) /\ files out.2 = files st)
  /\ (forall template e,
        read_file env template_path = Some template ->
        writable env target = true ->
        format_template env template (recovery_data self) = inr e ->
        out.1 = Raise (FormatError e)
        /\ file_content target (files out.2) = Some EmptyString)
  /\ (forall template text,
        read_file env template_path = Some template ->
        writable env target = true ->
        format_template env template (recovery_data self) = inl text ->
        out.1 = Return tt /\ file_content target (files out.2) = Some text)
  /\ (forall other, other <> target ->
        file_content other (files out.2) = file_content other (files st))
  /\ zone out.2 = zone st
  /\ recovery_data self !! "master_cname" = Some (master_cname self)
  /\ (forall key value, key <> "master_cname" ->
        self_settings self !! key = Some value ->
        recovery_data self !! key = Some value).
Proof.
  intros target out. subst target out.
  unfold PostgresqlCluster.write_recovery_conf. run.
  fold (recovery_data self).
  split; [| split; [| split; [| split; [| split; [| split; [| split]]]]]].
  - intros Hread. rewrite Hread. split; reflexivity.
  - intros template Hread Hwrite. rewrite Hread. simpl. rewrite Hwrite.
    split; reflexivity.
  - intros template e Hread Hwrite Hformat. rewrite Hread. simpl. rewrite Hwrite.
    simpl. rewrite Hformat. simpl.
    split; [reflexivity | apply file_content_written].
  - intros template text Hread Hwrite Hformat. rewrite Hread. simpl. rewrite Hwrite.
    simpl. rewrite Hformat. simpl.
    split; [reflexivity | apply file_content_written].
  - intros other Hother.
    destruct (read_file env template_path) as [t|]; simpl; [| reflexivity].
    destruct (writable env (RECOVERY_FILENAME (settings env))); simpl; [| reflexivity].
    destruct (format_template env t (recovery_data self)); simpl.
    + rewrite (file_content_other _ _ _ _ Hother).
      apply (file_content_other _ _ _ _ Hother).
    + apply (file_content_other _ _ _ _ Hother).
  - destruct (read_file env template_path) as [t|]; simpl; [| reflexivity].
    destruct (writable env (RECOVERY_FILENAME (settings env))); simpl; [| reflexivity].
    destruct (format_template env t (recovery_data self)); reflexivity.
  - unfold recovery_data. apply lookup_insert_eq.
  - intros key value Hkey Hsetting.
    unfold recovery_data. rewrite lookup_insert_ne by congruence.
    apply lookup_union_Some_l. exact Hsetting.
Qed.

Lemma write_recovery_conf_outcomes_witness :
  let env := {| settings := Sample.the_settings;
                dns_fault := None;
                route53_fault := None;
                pg_connect := Sample.unreachable;
                run_process := Sample.succeeds;
                read_file := fun _ => Some "primary_conninfo = 'host=%(master_cname)s'";
                writable := fun _ => false;
                format_template := fun t _ => inl t |} in
  let st := Sample.state_with [] in
  let out := PostgresqlCluster.write_recovery_conf Sample.self
               "/etc/ec2cluster/recovery-slave.template" env st in
  out.1 = Raise (IOError "/var/lib/postgresql/9.1/main/recovery.conf")
  /\ files out.2 = [].
Proof.
  intros env st out.
  destruct (write_recovery_conf_outcomes Sample.self
              "/etc/ec2cluster/recovery-slave.template" env st)
    as (_ & Hopen & _).
  apply (Hopen "primary_conninfo = 'host=%(master_cname)s'"); reflexivity.
Defined.

Lemma bind_return {A B} (m : M A) (f : A -> M B) env st a st' :
  m env st = (Return a, st') -> (m ≫= f) env st = f a env st'.
Proof. intros H. unfold mbind, M_bind. rewrite H. reflexivity. Qed.

Lemma bind_raise {A B} (m : M A) (f : A -> M B) env st e st' :
  m env st = (Raise e, st') -> (m ≫= f) env st = (Raise e, st').
Proof. intros H. unfold mbind, M_bind. rewrite H. reflexivity. Qed.

Lemma acquire_refused_run (self : Self) (env : Env) (st : State) :
  dns_fault env = None ->
  binding_exists (master_cname self) (zone st) ->
  exists lines,
    EC2Mixin.acquire_master_cname self false env st
    = (Raise (Exception ("CNAME " +:+ master_cname self
                         +:+ " exists and force is False - not taking the CNAME")),
       set_log (log st ++ lines) st).
Proof.
  intros Hdns Hb.
  destruct (binding_resolves _ _ Hb) as (v & items & Hres).
  unfold EC2Mixin.acquire_master_cname. run.
  rewrite Hdns, Hres. simpl. rewrite <- app_assoc. eexists. reflexivity.
Qed.

(** X19. [prepare_master] claims the CNAME first. When the master CNAME
    already exists it ends with the refusal of the claim, and neither the
    recovery file nor the crontab nor the zone has been touched. *)
Theorem prepare_master_stops_at_refused_claim (self : Self) (env : Env) (st : State) :
  dns_fault env = None ->
  binding_exists (master_cname self) (zone st) ->
  let out := PostgresqlCluster.prepare_master self env st in
  out.1 = Raise (Exception ("CNAME " +:+ master_cname self
                            +:+ " exists and force is False - not taking the CNAME"))
  /\ files out.2 = files st /\ crontab out.2 = crontab st /\ zone out.2 = zone st.
Proof.
  intros Hdns Hb out. subst out.
  destruct (acquire_refused_run self env st Hdns Hb) as [lines Hrun].
  unfold PostgresqlCluster.prepare_master.
  rewrite (bind_raise _ _ _ _ _ _ Hrun). simpl. repeat split.
Qed.

Lemma prepare_master_stops_at_refused_claim_witness :
  let st := Sample.state_with [Sample.master_record "ec2-1.example.com"] in
  files (PostgresqlCluster.prepare_master Sample.self Sample.env st).2 = []
  /\ crontab (PostgresqlCluster.prepare_master Sample.self Sample.env st).2 = [].
Proof.
  intros st.
  destruct (prepare_master_stops_at_refused_claim Sample.self Sample.env st)
    as (_ & Hfiles & Hcron & _).
  - reflexivity.
  - exists (Sample.master_record "ec2-1.example.com"). simpl.
    repeat split; [left; reflexivity | discriminate].
  - split; assumption.
Defined.

(** X20. The claim made by [prepare_master] is not taken back when a later
    step fails: with the master template missing, the call ends in
    [IOError] and the zone keeps the CNAME that was just created. *)
Theorem prepare_master_claim_outlives_failure (self : Self) (env : Env) (st : State)
    hostname :
  dns_fault env = None -> route53_fault env = None ->
  metadata self !! "public-hostname" = Some hostname ->
  records_named (master_cname self) (zone st) = [] ->
  read_file env (RECOVERY_TEMPLATE_MASTER (settings env)) = None ->
  let out := PostgresqlCluster.prepare_master self env st in
  out.1 = Raise (IOError (RECOVERY_TEMPLATE_MASTER (settings env)))
  /\ zone out.2 = zone st ++ [primary_binding self env hostname]
  /\ files out.2 = files st /\ crontab out.2 = crontab st.
Proof.
  intros Hdns Hr53 Hhost Habs Hread out. subst out.
  destruct (acquire_on_absent self false env st hostname Hdns Hr53 Hhost Habs)
    as (st1 & Hrun & Hz).
  assert (Hkeep : files st1 = files st /\ crontab st1 = crontab st).
  { revert Hrun.
    unfold EC2Mixin.acquire_master_cname, EC2Mixin._get_route53_conn, getitem.
    run. rewrite Hdns, (resolve_nxdomain _ _ _ Habs). simpl. rewrite Hhost. simpl.
    erewrite commit_applies;
      [| exact Hr53
       | apply (create_on_absent (master_cname self)); [exact Habs | reflexivity]].
    intros [= <-]. split; reflexivity. }
  destruct Hkeep as [Hf Hc].
  unfold PostgresqlCluster.prepare_master.
  rewrite (bind_return _ _ _ _ _ _ Hrun).
  unfold PostgresqlCluster.write_recovery_conf. run.
  rewrite Hread. simpl. auto.
Qed.

Lemma prepare_master_claim_outlives_failure_witness :
  let env := {| settings := Sample.the_settings;
                dns_fault := None;
                route53_fault := None;
                pg_connect := Sample.unreachable;
                run_process := Sample.succeeds;
                read_file := fun _ => None;
                writable := fun _ => true;
                format_template := fun t _ => inl t |} in
  let out := PostgresqlCluster.prepare_master Sample.self env (Sample.state_with []) in
  out.1 = Raise (IOError "/etc/ec2cluster/recovery-master.template")
  /\ zone out.2 = [Sample.master_record "instance12346.vagranttest.example.com"].
Proof.
  intros env out.
  destruct (prepare_master_claim_outlives_failure Sample.self env (Sample.state_with [])
              "instance12346.vagranttest.example.com") as (Hres & Hzone & _).
  - reflexivity.
  - reflexivity.
  - vm_compute. reflexivity.
  - reflexivity.
  - reflexivity.
  - split; [exact Hres | exact Hzone].
Defined.

(** ** [initialise] from end to end *)

Lemma determine_role_master_run (self : Self) (env : Env) (st : State) :
  dns_fault env = None ->
  records_named (master_cname self) (zone st) = [] ->
  exists lines,
    BaseCluster.determine_role self env st
    = (Return BaseCluster.MASTER, set_log (log st ++ lines) st).
Proof.
  intros Hdns Habs. unfold BaseCluster.determine_role. run.
  rewrite Hdns, (resolve_nxdomain _ _ _ Habs). simpl.
  rewrite <- app_assoc. eexists. reflexivity.
Qed.

Lemma determine_role_slave_run (self : Self) (env : Env) (st : State) :
  dns_fault env = None ->
  binding_exists (master_cname self) (zone st) ->
  exists lines,
    BaseCluster.determine_role self env st
    = (Return BaseCluster.SLAVE, set_log (log st ++ lines) st).
Proof.
  intros Hdns Hb.
  destruct (binding_resolves _ _ Hb) as (v & items & Hres).
  unfold BaseCluster.determine_role. run.
  rewrite Hdns, Hres. simpl. rewrite <- app_assoc. eexists. reflexivity.
Qed.

(** The steps of the hooks, each with what it leaves alone. *)
Lemma acquire_on_absent_frame (self : Self) (force : bool) (env : Env) (st : State)
    hostname :
  dns_fault env = None -> route53_fault env = None ->
  metadata self !! "public-hostname" = Some hostname ->
  records_named (master_cname self) (zone st) = [] ->
  exists st1,
    EC2Mixin.acquire_master_cname self force env st = (Return tt, st1)
    /\ zone st1 = zone st ++ [primary_binding self env hostname]
    /\ crontab st1 = crontab st /\ files st1 = files st
    /\ processes st1 = processes st /\ role st1 = role st.
Proof.
  intros Hdns Hr53 Hhost Habs.
  unfold EC2Mixin.acquire_master_cname, EC2Mixin._get_route53_conn, getitem. run.
  rewrite Hdns, (resolve_nxdomain _ _ _ Habs). simpl.
  rewrite Hhost. simpl.
  erewrite commit_applies;
    [| exact Hr53
     | apply (create_on_absent (master_cname self)); [exact Habs | reflexivity]].
  eexists. repeat split.
Qed.

Lemma write_recovery_conf_run (self : Self) (path : string) (env : Env) (st : State)
    template text :
  read_file env path = Some template ->
  writable env (RECOVERY_FILENAME (settings env)) = true ->
  format_template env template (recovery_data self) = inl text ->
  exists st1,
    PostgresqlCluster.write_recovery_conf self path env st = (Return tt, st1)
    /\ file_content (RECOVERY_FILENAME (settings env)) (files st1) = Some text
    /\ zone st1 = zone st /\ crontab st1 = crontab st
    /\ processes st1 = processes st /\ role st1 = role st.
Proof.
  intros Hread Hwrite Hformat. unfold PostgresqlCluster.write_recovery_conf. run.
  fold (recovery_data self). rewrite Hread. simpl. rewrite Hwrite. simpl.
  rewrite Hformat. simpl.
  eexists. split; [reflexivity |]. simpl. rewrite file_content_written. repeat split.
Qed.

Lemma configure_cron_backup_run (self : Self) (env : Env) (st : State) :
  exists st1,
    PostgresqlCluster.configure_cron_backup self env st = (Return tt, st1)
    /\ has_backup_job (crontab st1) = true
    /\ zone st1 = zone st /\ files st1 = files st
    /\ processes st1 = processes st /\ role st1 = role st.
Proof.
  unfold PostgresqlCluster.configure_cron_backup. run.
  fold backup_cmd. fold (has_backup_job (crontab st)).
  destruct (has_backup_job (crontab st)) eqn:Hhas; simpl; eexists;
    (split; [reflexivity |]); simpl; repeat split; try exact Hhas.
  unfold has_backup_job. rewrite existsb_app. simpl. apply orb_true_r.
Qed.

Lemma check_call_ok (cmd : list string) (env : Env) (st : State) output :
  run_process env cmd = Exited 0 output ->
  check_call cmd env st = (Return tt, set_processes (processes st ++ [cmd]) st).
Proof. intros Hrun. unfold check_call. rewrite Hrun. reflexivity. Qed.

Lemma initialise_master_run (self : Self) (env : Env) (st : State)
    hostname template text output :
  dns_fault env = None -> route53_fault env = None ->
  metadata self !! "public-hostname" = Some hostname ->
  records_named (master_cname self) (zone st) = [] ->
  read_file env (RECOVERY_TEMPLATE_MASTER (settings env)) = Some template ->
  writable env (RECOVERY_FILENAME (settings env)) = true ->
  format_template env template (recovery_data self) = inl text ->
  run_process env ["/etc/init.d/postgresql"; "start"] = Exited 0 output ->
  exists st',
    @BaseCluster.initialise PostgresqlCluster.service self env st = (Return tt, st')
    /\ role st' = Some "master"
    /\ zone st' = zone st ++ [primary_binding self env hostname]
    /\ file_content (RECOVERY_FILENAME (settings env)) (files st') = Some text
    /\ has_backup_job (crontab st') = true
    /\ processes st' = processes st ++ [["/etc/init.d/postgresql"; "start"]].
Proof.
  intros Hdns Hr53 Hhost Habs Hread Hopen Hformat Hstart.
  destruct (determine_role_master_run self env st Hdns Habs) as [l0 Hrole].
  set (s0 := set_role (Some BaseCluster.MASTER) (set_log (log st ++ l0) st)).
  destruct (acquire_on_absent_frame self false env s0 hostname Hdns Hr53 Hhost Habs)
    as (s1 & Hclaim & Hz1 & Hc1 & Hf1 & Hp1 & Hr1).
  destruct (write_recovery_conf_run self _ env s1 template text Hread Hopen Hformat)
    as (s2 & Hwrite & Hfile2 & Hz2 & Hc2 & Hp2 & Hr2).
  destruct (configure_cron_backup_run self env s2)
    as (s3 & Hcron & Hhas3 & Hz3 & Hf3 & Hp3 & Hr3).
  exists (set_processes (processes s3 ++ [["/etc/init.d/postgresql"; "start"]]) s3).
  split.
  - unfold BaseCluster.initialise.
    rewrite (bind_return _ _ _ _ _ _ Hrole).
    rewrite (bind_return _ _ _ _ tt s0 eq_refl).
    rewrite get_roles_master. simpl self_prepare_master.
    erewrite bind_return.
    2:{ unfold PostgresqlCluster.prepare_master.
        rewrite (bind_return _ _ _ _ _ _ Hclaim).
        rewrite (bind_return _ _ _ _ env s1 eq_refl).
        rewrite (bind_return _ _ _ _ _ _ Hwrite). exact Hcron. }
    erewrite bind_return.
    2:{ simpl self_start_process. unfold PostgresqlCluster.start_process.
        apply (check_call_ok _ _ _ output Hstart). }
    reflexivity.
  - simpl. rewrite Hr3, Hr2, Hr1, Hz3, Hz2, Hz1, Hf3, Hfile2, Hp3, Hp2, Hp1.
    repeat split; assumption.
Qed.

(** X21. On a [PostgresqlCluster], with no record of the master name, the
    name service and Route53 answering, the template readable, the recovery
    file writable, the template formatted and the start command exiting
    with 0, [initialise] takes the master role: it
    returns normally, the role is ['master'], the zone has gained the CNAME
    to this host, the recovery file holds the formatted master template,
    the crontab holds the backup job, and the one command run is the start
    of postgresql. *)
Theorem initialise_as_master (self : Self) (env : Env) (st : State)
    hostname template text output :
  dns_fault env = None -> route53_fault env = None ->
  metadata self !! "public-hostname" = Some hostname ->
  records_named (master_cname self) (zone st) = [] ->
  read_file env (RECOVERY_TEMPLATE_MASTER (settings env)) = Some template ->
  writable env (RECOVERY_FILENAME (settings env)) = true ->
  format_template env template (recovery_data self) = inl text ->
  run_process env ["/etc/init.d/postgresql"; "start"] = Exited 0 output ->
  exists st',
    @BaseCluster.initialise PostgresqlCluster.service self env st = (Return tt, st')
    /\ role st' = Some "master"
    /\ zone st' = zone st ++ [primary_binding self env hostname]
    /\ file_content (RECOVERY_FILENAME (settings env)) (files st') = Some text
    /\ has_backup_job (crontab st') = true
    /\ processes st' = processes st ++ [["/etc/init.d/postgresql"; "start"]].
Proof. exact (initialise_master_run self env st hostname template text output). Qed.

Lemma initialise_as_master_witness :
  exists st',
    @BaseCluster.initialise PostgresqlCluster.service Sample.self Sample.env
      (Sample.state_with []) = (Return tt, st')
    /\ role st' = Some "master"
    /\ processes st' = [["/etc/init.d/postgresql"; "start"]].
Proof.
  destruct (initialise_as_master Sample.self Sample.env (Sample.state_with [])
              "instance12346.vagranttest.example.com" "standby_mode = 'on'"
              "standby_mode = 'on'" "server promoting")
    as (st' & Hres & Hrole & _ & _ & _ & Hprocs).
  - reflexivity.
  - reflexivity.
  - vm_compute. reflexivity.
  - reflexivity.
  - reflexivity.
  - reflexivity.
  - reflexivity.
  - reflexivity.
  - exists st'. repeat split; assumption.
Defined.

Lemma add_to_pool_run (self : Self) (env : Env) (st : State) instance_id hostname :
  route53_fault env = None ->
  metadata self !! "instance-id" = Some instance_id ->
  metadata self !! "public-hostname" = Some hostname ->
  exists st1,
    EC2Mixin.add_to_slave_cname_pool self env st = (Return tt, st1)
    /\ zone st1 = (if existsb (same_key (pool_entry self env instance_id hostname)) (zone st)
                   then zone st
                   else zone st ++ [pool_entry self env instance_id hostname])
    /\ crontab st1 = crontab st /\ files st1 = files st
    /\ processes st1 = processes st /\ role st1 = role st.
Proof.
  intros Hr53 Hid Hhost.
  rewrite (add_to_pool_by_commit self env st instance_id hostname Hid Hhost).
  cbv zeta.
  destruct (existsb (same_key (pool_entry self env instance_id hostname)) (zone st))
    eqn:Hex.
  - destruct (create_already_exists _ _ Hex) as (msg & Happ & Hend).
    erewrite commit_refuses; [| exact Hr53 | exact Happ].
    rewrite Hend. eexists. repeat split.
  - erewrite commit_applies; [| exact Hr53 | simpl; rewrite Hex; reflexivity].
    eexists. repeat split.
Qed.

Lemma initialise_slave_run (self : Self) (env : Env) (st : State)
    instance_id hostname template text output :
  dns_fault env = None -> route53_fault env = None ->
  binding_exists (master_cname self) (zone st) ->
  metadata self !! "instance-id" = Some instance_id ->
  metadata self !! "public-hostname" = Some hostname ->
  read_file env (RECOVERY_TEMPLATE_SLAVE (settings env)) = Some template ->
  writable env (RECOVERY_FILENAME (settings env)) = true ->
  format_template env template (recovery_data self) = inl text ->
  run_process env ["/etc/init.d/postgresql"; "start"] = Exited 0 output ->
  exists st',
    @BaseCluster.initialise PostgresqlCluster.service self env st = (Return tt, st')
    /\ role st' = Some "slave"
    /\ zone st' = (if existsb (same_key (pool_entry self env instance_id hostname)) (zone st)
                   then zone st
                   else zone st ++ [pool_entry self env instance_id hostname])
    /\ existsb (same_key (pool_entry self env instance_id hostname)) (zone st') = true
    /\ binding_exists (master_cname self) (zone st')
    /\ file_content (RECOVERY_FILENAME (settings env)) (files st') = Some text
    /\ crontab st' = crontab st
    /\ processes st' = processes st ++ [["/etc/init.d/postgresql"; "start"]].
Proof.
  intros Hdns Hr53 Hb Hid Hhost Hread Hopen Hformat Hstart.
  destruct (determine_role_slave_run self env st Hdns Hb) as [l0 Hrole].
  set (s0 := set_role (Some BaseCluster.SLAVE) (set_log (log st ++ l0) st)).
  destruct (write_recovery_conf_run self _ env s0 template text Hread Hopen Hformat)
    as (s1 & Hwrite & Hfile1 & Hz1 & Hc1 & Hp1 & Hr1).
  set (s2 := set_log (log s1 ++ [(INFO, "Instance configured as a slave")]) s1).
  destruct (add_to_pool_run self env s2 instance_id hostname Hr53 Hid Hhost)
    as (s3 & Hjoin & Hz3 & Hc3 & Hf3 & Hp3 & Hr3).
  assert (Hz2 : zone s2 = zone st) by (simpl; rewrite Hz1; reflexivity).
  rewrite Hz2 in Hz3.
  exists (set_processes (processes s3 ++ [["/etc/init.d/postgresql"; "start"]]) s3).
  split.
  - unfold BaseCluster.initialise.
    rewrite (bind_return _ _ _ _ _ _ Hrole).
    rewrite (bind_return _ _ _ _ tt s0 eq_refl).
    rewrite get_roles_slave. simpl self_prepare_slave.
    erewrite bind_return.
    2:{ unfold PostgresqlCluster.prepare_slave.
        rewrite (bind_return _ _ _ _ env s0 eq_refl).
        rewrite (bind_return _ _ _ _ _ _ Hwrite).
        rewrite (bind_return _ _ _ _ tt s2 eq_refl). exact Hjoin. }
    erewrite bind_return.
    2:{ simpl self_start_process. unfold PostgresqlCluster.start_process.
        apply (check_call_ok _ _ _ output Hstart). }
    reflexivity.
  - simpl. rewrite Hr3, Hz3, Hf3, Hc3, Hp3. simpl.
    rewrite Hr1, Hc1, Hp1, Hfile1. simpl.
    split; [reflexivity |]. split; [reflexivity |].
    split.
    { destruct (existsb (same_key (pool_entry self env instance_id hostname)) (zone st))
        eqn:Hex; [exact Hex |].
      rewrite existsb_app. simpl. rewrite same_key_refl. apply orb_true_r. }
    split.
    { destruct Hb as (r & Hin & Hrest). exists r.
      split; [| exact Hrest].
      destruct (existsb _ (zone st)); [exact Hin | apply in_or_app; left; exact Hin]. }
    repeat split.
Qed.

(** X22. On a [PostgresqlCluster], when the master CNAME exists, the name
    service and Route53 answer, the template is readable, the recovery file
    writable, the template formatted and the start command exits with 0,
    [initialise] takes the slave role: the recovery file is written from the
    slave template, the pool holds a record for this instance afterwards
    (the weighted record is appended when the pool had none for this
    instance, and nothing is added when it had one), the master CNAME is
    still there, postgresql is started, and nothing is scheduled in the
    crontab. *)
Theorem initialise_as_slave (self : Self) (env : Env) (st : State)
    instance_id hostname template text output :
  dns_fault env = None -> route53_fault env = None ->
  binding_exists (master_cname self) (zone st) ->
  metadata self !! "instance-id" = Some instance_id ->
  metadata self !! "public-hostname" = Some hostname ->
  read_file env (RECOVERY_TEMPLATE_SLAVE (settings env)) = Some template ->
  writable env (RECOVERY_FILENAME (settings env)) = true ->
  format_template env template (recovery_data self) = inl text ->
  run_process env ["/etc/init.d/postgresql"; "start"] = Exited 0 output ->
  exists st',
    @BaseCluster.initialise PostgresqlCluster.service self env st = (Return tt, st')
    /\ role st' = Some "slave"
    /\ zone st' = (if existsb (same_key (pool_entry self env instance_id hostname)) (zone st)
                   then zone st
                   else zone st ++ [pool_entry self env instance_id hostname])
    /\ existsb (same_key (pool_entry self env instance_id hostname)) (zone st') = true
    /\ binding_exists (master_cname self) (zone st')
    /\ file_content (RECOVERY_FILENAME (settings env)) (files st') = Some text
    /\ crontab st' = crontab st
    /\ processes st' = processes st ++ [["/etc/init.d/postgresql"; "start"]].
Proof.
  exact (initialise_slave_run self env st instance_id hostname template text output).
Qed.

Lemma initialise_as_slave_witness :
  exists st',
    @BaseCluster.initialise PostgresqlCluster.service Sample.self Sample.env
      (Sample.state_with [Sample.master_record "ec2-1.example.com"]) = (Return tt, st')
    /\ role st' = Some "slave"
    /\ zone st'
       = [Sample.master_record "ec2-1.example.com";
          Sample.pool_record "i-12346" "instance12346.vagranttest.example.com"].
Proof.
  destruct (initialise_as_slave Sample.self Sample.env
              (Sample.state_with [Sample.master_record "ec2-1.example.com"])
              "i-12346" "instance12346.vagranttest.example.com"
              "standby_mode = 'on'" "standby_mode = 'on'" "server promoting")
    as (st' & Hres & Hrole & Hzone & _).
  - reflexivity.
  - reflexivity.
  - exists (Sample.master_record "ec2-1.example.com"). simpl.
    repeat split; [left; reflexivity | discriminate].
  - vm_compute. reflexivity.
  - vm_compute. reflexivity.
  - reflexivity.
  - reflexivity.
  - reflexivity.
  - reflexivity.
  - exists st'. repeat split; assumption.
Defined.

(** X23. A [ScriptCluster] that has only [BaseCluster] behind it never
    completes [initialise]: after the start of the service, [poll_process]
    calls [process_started], which in the master role reaches the
    [acquire_master_cname] that raises [NotImplementedError] and in the slave
    role looks up [add_to_slave_cname_pool], which the class does not have. *)
Theorem script_cluster_never_completes (self : Self) (env : Env) (st : State) :
  (@BaseCluster.initialise (@ScriptCluster.service BaseCluster.infrastructure)
     self env st).1 <> Return tt.
Proof.
  unfold BaseCluster.initialise, BaseCluster.determine_role.
  run.
  destruct (dns_fault env) as [f|].
  - destruct f; simpl; try discriminate.
    rewrite get_roles_master. simpl.
    unfold ScriptCluster.prepare_master, ScriptCluster.start_process,
      ScriptCluster.poll_process, BaseCluster.process_started, check_call. run.
    cases; discriminate.
  - destruct (resolve (zone st) (master_cname self) "CNAME") as [a|e]; simpl.
    + rewrite get_roles_slave. simpl.
      unfold ScriptCluster.prepare_slave, ScriptCluster.start_process,
        ScriptCluster.poll_process, BaseCluster.process_started, check_call. run.
      cases; discriminate.
    + destruct e as [[] | | | | | | | | | | | |]; simpl; try discriminate.
      rewrite get_roles_master. simpl.
      unfold ScriptCluster.prepare_master, ScriptCluster.start_process,
        ScriptCluster.poll_process, BaseCluster.process_started, check_call. run.
      cases; discriminate.
Qed.

(** ** The command line of [promote] *)

Lemma split_from_word (w : string) : forall cur rest,
  whitespace_free w = true ->
  split_from cur (w +:+ rest) = split_from (cur +:+ w) rest.
Proof.
  induction w as [|c w IH]; intros cur rest Hw.
  - change (EmptyString +:+ rest) with rest.
    replace (cur +:+ EmptyString) with cur; [reflexivity |].
    clear. induction cur as [|x cur IH]; [reflexivity |].
    change (String x cur = String x (cur +:+ EmptyString)). rewrite <- IH. reflexivity.
  - simpl in Hw. apply andb_true_iff in Hw as [Hc Hw].
    apply negb_true_iff in Hc.
    change (String c w +:+ rest) with (String c (w +:+ rest)).
    simpl. rewrite Hc. rewrite (IH _ _ Hw).
    rewrite string_app_assoc. reflexivity.
Qed.

Lemma split_from_space cur rest :
  cur <> EmptyString ->
  split_from cur (" " +:+ rest) = cur :: split_from EmptyString rest.
Proof.
  intros Hcur. change (" " +:+ rest) with (String " " rest). simpl.
  destruct cur; [congruence | reflexivity].
Qed.

Lemma promote_cmd_words (env : Env) :
  PG_CTL (settings env) <> EmptyString -> PG_DIR (settings env) <> EmptyString ->
  whitespace_free (PG_CTL (settings env)) = true ->
  whitespace_free (PG_DIR (settings env)) = true ->
  py_split (promote_cmd env)
  = [PG_CTL (settings env); "-D"; PG_DIR (settings env); "promote"].
Proof.
  intros Hctl Hdir Wctl Wdir. unfold py_split, promote_cmd.
  rewrite (split_from_word _ _ _ Wctl).
  change (EmptyString +:+ PG_CTL (settings env)) with (PG_CTL (settings env)).
  change (" -D " +:+ PG_DIR (settings env) +:+ " promote")
    with (" " +:+ ("-D" +:+ (" " +:+ (PG_DIR (settings env) +:+ " promote")))).
  rewrite (split_from_space _ _ Hctl).
  rewrite (split_from_word "-D" _ _ eq_refl).
  rewrite split_from_space by discriminate.
  rewrite (split_from_word _ _ _ Wdir).
  change (EmptyString +:+ PG_DIR (settings env)) with (PG_DIR (settings env)).
  change (" promote") with (" " +:+ "promote").
  rewrite (split_from_space _ _ Hdir).
  reflexivity.
Qed.

Lemma promote_cmd_words_blank (env : Env) (a b : string) :
  PG_CTL (settings env) <> EmptyString ->
  whitespace_free (PG_CTL (settings env)) = true ->
  PG_DIR (settings env) = a +:+ " " +:+ b ->
  a <> EmptyString -> b <> EmptyString ->
  whitespace_free a = true -> whitespace_free b = true ->
  py_split (promote_cmd env) = [PG_CTL (settings env); "-D"; a; b; "promote"].
Proof.
  intros Hctl Wctl Hdir Ha Hb Wa Wb. unfold py_split, promote_cmd. rewrite Hdir.
  rewrite (split_from_word _ _ _ Wctl).
  change (EmptyString +:+ PG_CTL (settings env)) with (PG_CTL (settings env)).
  rewrite !string_app_assoc.
  change (" -D " +:+ a +:+ " " +:+ b +:+ " promote")
    with (" " +:+ ("-D" +:+ (" " +:+ (a +:+ " " +:+ b +:+ " promote")))).
  rewrite (split_from_space _ _ Hctl).
  rewrite (split_from_word "-D" _ _ eq_refl).
  rewrite split_from_space by discriminate.
  rewrite (split_from_word _ _ _ Wa).
  change (EmptyString +:+ a) with a.
  rewrite (split_from_space _ _ Ha).
  rewrite (split_from_word _ _ _ Wb).
  change (EmptyString +:+ b) with b.
  change (" promote") with (" " +:+ "promote").
  rewrite (split_from_space _ _ Hb).
  reflexivity.
Qed.

(** What [promote] does past its guard once the words of its command line
    are known: the run of these words is recorded, and when it exits with 0
    the backup job is scheduled and [promote] returns. *)
Lemma promote_by_command (self : Self) (force : bool) (env : Env) (st : State)
    (words : list string) :
  guard_passes self force env st ->
  py_split (promote_cmd env) = words ->
  let out := PostgresqlCluster.promote self force env st in
  processes out.2 = processes st ++ [words]
  /\ (forall output, run_process env words = Exited 0 output ->
        out.1 = Return tt /\ has_backup_job (crontab out.2) = true).
Proof.
  intros Hguard Hwords. cbv zeta. split.
  - rewrite <- Hwords. exact (promote_reaches_command self force env st Hguard).
  - intros output Hrun. subst words. unfold guard_passes in Hguard.
    destruct (check_master_log_only self env st) as [l Hl].
    destruct (PostgresqlCluster.check_master self env st) as [r s1] eqn:Hcheck.
    simpl in Hguard, Hl. subst s1.
    assert (Hcmd : forall s,
      check_output (py_split (promote_cmd env)) env s
      = (Return output,
         set_processes (processes s ++ [py_split (promote_cmd env)]) s)).
    { intros s. unfold check_output. rewrite Hrun. reflexivity. }
    assert (Hjob : forall s : State,
      (PostgresqlCluster.configure_cron_backup self env s).1 = Return tt
      /\ has_backup_job (crontab (PostgresqlCluster.configure_cron_backup self env s).2)
         = true).
    { intros s. destruct (configure_cron_backup_run self env s)
        as (s' & Hjob & Hhas & _).
      rewrite Hjob. split; [reflexivity | exact Hhas]. }
    unfold PostgresqlCluster.promote. run. rewrite Hcheck.
    fold (promote_cmd env).
    destruct r as [[|]|e]; simpl.
    + rewrite (Hguard eq_refl). simpl. rewrite Hcmd. simpl. apply Hjob.
    + rewrite Hcmd. simpl. apply Hjob.
    + rewrite Hguard. simpl. rewrite Hcmd. simpl. apply Hjob.
Qed.

(** X24. [promote] splits its command line on whitespace: when the settings
    [PG_CTL] and [PG_DIR] are non-empty and free of whitespace, a [promote]
    that gets past its guard runs the program once, with exactly the
    arguments [-D], the directory and [promote]; when that run exits with 0,
    [promote] schedules the backup job and returns. *)
Theorem promote_command_arguments (self : Self) (force : bool) (env : Env) (st : State) :
  guard_passes self force env st ->
  PG_CTL (settings env) <> EmptyString -> PG_DIR (settings env) <> EmptyString ->
  whitespace_free (PG_CTL (settings env)) = true ->
  whitespace_free (PG_DIR (settings env)) = true ->
  let words := [PG_CTL (settings env); "-D"; PG_DIR (settings env); "promote"] in
  let out := PostgresqlCluster.promote self force env st in
  processes out.2 = processes st ++ [words]
  /\ (forall output, run_process env words = Exited 0 output ->
        out.1 = Return tt /\ has_backup_job (crontab out.2) = true).
Proof.
  intros Hguard Hctl Hdir Wctl Wdir.
  exact (promote_by_command self force env st _ Hguard
           (promote_cmd_words env Hctl Hdir Wctl Wdir)).
Qed.

Lemma promote_command_arguments_witness :
  let st := Sample.state_with [Sample.master_record "ec2-1.example.com"] in
  let out := PostgresqlCluster.promote Sample.self true Sample.env st in
  processes out.2
  = [["/usr/lib/postgresql/9.1/bin/pg_ctl"; "-D"; "/var/lib/postgresql/9.1/main"; "promote"]]
  /\ out.1 = Return tt.
Proof.
  intros st out.
  assert (Hguard : guard_passes Sample.self true Sample.env st)
    by (vm_compute; reflexivity).
  split.
  - apply (promote_command_arguments Sample.self true Sample.env st Hguard);
      solve [discriminate | reflexivity].
  - reflexivity.
Defined.

(** X25. A directory with a blank in it does not survive the split: a
    [promote] that gets past its guard then runs the program with one
    argument more, the directory handed over in two pieces, and it is the
    exit of that run which decides whether [promote] returns. *)
Theorem promote_command_splits_directory (self : Self) (force : bool) (env : Env)
    (st : State) (a b : string) :
  guard_passes self force env st ->
  PG_CTL (settings env) <> EmptyString ->
  whitespace_free (PG_CTL (settings env)) = true ->
  PG_DIR (settings env) = a +:+ " " +:+ b ->
  a <> EmptyString -> b <> EmptyString ->
  whitespace_free a = true -> whitespace_free b = true ->
  let words := [PG_CTL (settings env); "-D"; a; b; "promote"] in
  let out := PostgresqlCluster.promote self force env st in
  processes out.2 = processes st ++ [words]
  /\ (forall output, run_process env words = Exited 0 output ->
        out.1 = Return tt /\ has_backup_job (crontab out.2) = true).
Proof.
  intros Hguard Hctl Wctl Hdir Ha Hb Wa Wb.
  exact (promote_by_command self force env st _ Hguard
           (promote_cmd_words_blank env a b Hctl Wctl Hdir Ha Hb Wa Wb)).
Qed.

Lemma promote_command_splits_directory_witness :
  let env := {| settings := {| ROUTE53_ZONE_ID := "Z3EXAMPLE";
                               MASTER_CNAME_TTL := 60; SLAVE_CNAME_TTL := 60;
                               PG_USER := "postgres"; PG_CTL := "pg_ctl";
                               PG_DIR := "/srv/pg data";
                               RECOVERY_FILENAME := "recovery.conf";
                               RECOVERY_TEMPLATE_MASTER := "master.template";
                               RECOVERY_TEMPLATE_SLAVE := "slave.template" |};
                dns_fault := None; route53_fault := None;
                pg_connect := Sample.unreachable; run_process := Sample.succeeds;
                read_file := fun _ => None;
                writable := fun _ => true;
                format_template := fun t _ => inl t |} in
  let st := Sample.state_with [] in
  processes (PostgresqlCluster.promote Sample.self false env st).2
  = [["pg_ctl"; "-D"; "/srv/pg"; "data"; "promote"]].
Proof.
  intros env st.
  apply (promote_command_splits_directory Sample.self false env st "/srv/pg" "data");
    solve [discriminate | reflexivity].
Defined.

(** ** Method resolution and [get_cluster_class] *)

Lemma has_attribute_className s i name :
  Classes.has_attribute (Classes.className s i) name = false.
Proof. reflexivity. Qed.

(** Computes the order of a class given in full and unfolds the search. *)
Ltac resolve_order :=
  unfold Classes.find_attribute, Classes.get_cluster_class in *;
  repeat match goal with
         | |- context [Classes.mro ?c] =>
             let r := eval vm_compute in (Classes.mro c) in
             change (Classes.mro c) with r
         | H : context [Classes.mro ?c] |- _ =>
             let r := eval vm_compute in (Classes.mro c) in
             change (Classes.mro c) with r in H
         end;
  cbn [List.find] in *;
  rewrite ?has_attribute_className in *.

(** X26. The class [get_cluster_class] builds lists the service class first
    and the infrastructure class second. For each service class of the file
    and each of the two mixins the class can be built, and every name that
    the service class resolves keeps its owner: the mixin supplies only what
    neither the service class nor [BaseCluster] defines. So on a class built
    from [ScriptCluster], [get_metadata] and [acquire_master_cname] are the
    [BaseCluster] methods that raise [NotImplementedError], whichever mixin
    is given. *)
Theorem get_cluster_class_keeps_service_methods
    (infrastructureClass serviceClass : Classes.class) :
  In serviceClass [Classes.BaseCluster; Classes.ScriptCluster; Classes.PostgresqlCluster] ->
  In infrastructureClass [Classes.EC2Mixin; Classes.VagrantMixin] ->
  let built := Classes.get_cluster_class infrastructureClass serviceClass in
  Classes.mro built <> None
  /\ (forall name owner,
        Classes.find_attribute serviceClass name = Some owner ->
        Classes.find_attribute built name = Some owner)
  /\ (serviceClass <> Classes.PostgresqlCluster ->
      Classes.find_attribute built "get_metadata" = Some Classes.BaseCluster
      /\ Classes.find_attribute built "acquire_master_cname" = Some Classes.BaseCluster).
Proof.
  intros Hs Hi built. subst built. simpl in Hs, Hi.
  assert (Hobject : forall name,
    Classes.has_attribute Classes.object name = true -> name = "__init__").
  { intros name. unfold Classes.has_attribute. simpl. rewrite orb_false_r.
    apply String.eqb_eq. }
  destruct Hs as [<- | [<- | [<- | []]]]; destruct Hi as [<- | [<- | []]];
    (split; [vm_compute; discriminate |]);
    (split; [intros name owner Hfind;
             destruct (Classes.has_attribute Classes.object name) eqn:Ho;
             [apply Hobject in Ho; subst name; vm_compute in Hfind |- *; exact Hfind
             | resolve_order; rewrite ?Ho in *;
               repeat match goal with
                      | H : context [Classes.has_attribute ?c name] |- _ =>
                          destruct (Classes.has_attribute c name); cbn iota in *
                      end; congruence]
            | intros Hne; try congruence; split; reflexivity]).
Qed.

Lemma get_cluster_class_keeps_service_methods_witness :
  Classes.find_attribute (Classes.get_cluster_class Classes.EC2Mixin Classes.ScriptCluster)
    "acquire_master_cname"
  = Some Classes.BaseCluster.
Proof.
  apply (get_cluster_class_keeps_service_methods Classes.EC2Mixin Classes.ScriptCluster).
  - simpl. auto.
  - simpl. auto.
  - discriminate.
Defined.

(** On [PostgresqlCluster] as it is declared, [acquire_master_cname],
    [add_to_slave_cname_pool] and [get_metadata] are found in [EC2Mixin],
    ahead of [BaseCluster], while [release_master_cname] is found only in
    [BaseCluster]; [ScriptCluster] finds no [add_to_slave_cname_pool] at
    all. Listing the bases the other way round cannot be linearised. *)
Lemma declared_classes_resolution :
  Classes.mro Classes.PostgresqlCluster
  = Some [Classes.PostgresqlCluster; Classes.EC2Mixin; Classes.BaseCluster; Classes.object]
  /\ Classes.find_attribute Classes.PostgresqlCluster "acquire_master_cname"
     = Some Classes.EC2Mixin
  /\ Classes.find_attribute Classes.PostgresqlCluster "add_to_slave_cname_pool"
     = Some Classes.EC2Mixin
  /\ Classes.find_attribute Classes.PostgresqlCluster "get_metadata"
     = Some Classes.EC2Mixin
  /\ Classes.find_attribute Classes.PostgresqlCluster "release_master_cname"
     = Some Classes.BaseCluster
  /\ Classes.find_attribute Classes.ScriptCluster "add_to_slave_cname_pool" = None
  /\ Classes.mro (Classes.className Classes.BaseCluster Classes.ScriptCluster) = None.
Proof. vm_compute. repeat split. Qed.

(** ** Nodes described by [VagrantMixin] *)

Lemma add_to_pool_on_present (self : Self) (env : Env) (st : State) instance_id hostname :
  route53_fault env = None ->
  metadata self !! "instance-id" = Some instance_id ->
  metadata self !! "public-hostname" = Some hostname ->
  existsb (same_key (pool_entry self env instance_id hostname)) (zone st) = true ->
  exists st1,
    EC2Mixin.add_to_slave_cname_pool self env st = (Return tt, st1)
    /\ zone st1 = zone st.
Proof.
  intros Hr53 Hid Hhost Hex.
  rewrite (add_to_pool_by_commit self env st instance_id hostname Hid Hhost).
  cbv zeta.
  destruct (create_already_exists _ _ Hex) as (msg & Happ & Hend).
  erewrite commit_refuses; [| exact Hr53 | exact Happ].
  rewrite Hend. eexists. split; reflexivity.
Qed.

(** X27. [VagrantMixin.get_metadata] gives every node the same instance id
    and hostname, whatever its environment holds, and writes them into the
    environment of the process too. Two such nodes therefore cannot both be
    in the slave pool: the first registration adds the record, the second is
    answered "it already exists", returns normally and adds nothing. *)
Theorem vagrant_nodes_share_one_pool_entry (environ_a environ_b : gmap string string)
    (a b : Self) (env : Env) (st : State) :
  metadata a = (VagrantMixin.get_metadata environ_a).1 ->
  metadata b = (VagrantMixin.get_metadata environ_b).1 ->
  slave_cname b = slave_cname a ->
  route53_fault env = None ->
  existsb (same_key (pool_entry a env "i-12346" "instance12346.vagranttest.example.com"))
    (zone st) = false ->
  (VagrantMixin.get_metadata environ_a).2 !! "instance-id" = Some "i-12346"
  /\ exists st1 st2,
       EC2Mixin.add_to_slave_cname_pool a env st = (Return tt, st1)
       /\ EC2Mixin.add_to_slave_cname_pool b env st1 = (Return tt, st2)
       /\ zone st1 = zone st ++ [pool_entry a env "i-12346"
                                   "instance12346.vagranttest.example.com"]
       /\ zone st2 = zone st1.
Proof.
  intros Ha Hb Hsame Hr53 Hfresh.
  assert (Hmeta : forall environ,
    (VagrantMixin.get_metadata environ).1 !! "instance-id" = Some "i-12346"
    /\ (VagrantMixin.get_metadata environ).1 !! "public-hostname"
       = Some "instance12346.vagranttest.example.com"
    /\ (VagrantMixin.get_metadata environ).2 = (VagrantMixin.get_metadata environ).1).
  { intros environ. unfold VagrantMixin.get_metadata. simpl. split; [| split].
    - apply lookup_insert_eq.
    - rewrite lookup_insert_ne by discriminate. apply lookup_insert_eq.
    - reflexivity. }
  destruct (Hmeta environ_a) as (Hia & Hha & Halias).
  destruct (Hmeta environ_b) as (Hib & Hhb & _).
  split; [rewrite Halias; exact Hia |].
  rewrite <- Ha in Hia, Hha. rewrite <- Hb in Hib, Hhb.
  destruct (add_to_pool_on_fresh a env st _ _ Hr53 Hia Hha Hfresh)
    as (st1 & Hrun1 & Hz1 & _).
  destruct (add_to_pool_on_present b env st1 _ _ Hr53 Hib Hhb) as (st2 & Hrun2 & Hz2).
  { rewrite Hz1, existsb_app. simpl.
    replace (pool_entry b env "i-12346" "instance12346.vagranttest.example.com")
      with (pool_entry a env "i-12346" "instance12346.vagranttest.example.com")
      by (unfold pool_entry; rewrite Hsame; reflexivity).
    rewrite same_key_refl. apply orb_true_r. }
  exists st1, st2. auto.
Qed.

Lemma vagrant_nodes_share_one_pool_entry_witness :
  let node (environ : gmap string string) : Self :=
    {| metadata := (VagrantMixin.get_metadata environ).1;
       self_settings := ∅;
       master_cname := "master.vagranttest.example.com";
       slave_cname := "slave.vagranttest.example.com" |} in
  exists st1 st2,
    EC2Mixin.add_to_slave_cname_pool (node (<["HOME" := "/home/a"]> ∅)) Sample.env
      (Sample.state_with []) = (Return tt, st1)
    /\ EC2Mixin.add_to_slave_cname_pool (node (<["HOME" := "/home/b"]> ∅)) Sample.env st1
       = (Return tt, st2)
    /\ zone st2 = zone st1.
Proof.
  intros node.
  destruct (vagrant_nodes_share_one_pool_entry
              (<["HOME" := "/home/a"]> ∅) (<["HOME" := "/home/b"]> ∅)
              (node (<["HOME" := "/home/a"]> ∅)) (node (<["HOME" := "/home/b"]> ∅))
              Sample.env (Sample.state_with []))
    as (_ & st1 & st2 & H1 & H2 & _ & Hz).
  - reflexivity.
  - reflexivity.
  - reflexivity.
  - reflexivity.
  - reflexivity.
  - exists st1, st2. auto.
Defined.

(** ** The release task of [fabfile.py] *)

(** X28. [publish] hands its commands to [local] in the order they are
    written and stops at the first one that fails: the commands it got to
    are exactly [executed], and it completes only when every command
    succeeded. *)
Theorem publish_runs_until_first_failure (version : string) (run_tests : bool)
    (ok : string -> bool) :
  let out := Fabfile.publish version run_tests ok [] in
  out.2 = executed ok (publish_commands version run_tests)
  /\ out.1 = (if forallb ok (publish_commands version run_tests) then Some tt else None).
Proof.
  unfold Fabfile.publish, Fabfile.validate, publish_commands, validate_commands.
  unfold mbind, Fabfile.Fab_bind, mret, Fabfile.Fab_ret, Fabfile.local.
  destruct run_tests; simpl;
    repeat (match goal with |- context [ok ?c] => destruct (ok c) eqn:? end; simpl);
    split; reflexivity.
Qed.

(** Closes a membership of one command line in a list of others. *)
Ltac not_among :=
  simpl; intuition (try match goal with
                        | H : _ = _ |- _ => cbv [String.append] in H; discriminate H
                        end).

(** X29. With the tests switched on, a failing validation command keeps
    everything back: the task is aborted and nothing is pushed, uploaded or
    tagged. With or without tests, the tag is made only after the push and
    the upload have succeeded. *)
Theorem publish_gated_by_validation (version : string) (ok : string -> bool) :
  (forallb ok validate_commands = false ->
   let out := Fabfile.publish version true ok [] in
   out.1 = None
   /\ ~ In "git push" out.2
   /\ ~ In "python setup.py sdist upload" out.2
   /\ ~ In ("git tag " +:+ "v" +:+ version) out.2)
  /\ (forall run_tests,
        In ("git tag " +:+ "v" +:+ version) (Fabfile.publish version run_tests ok []).2 ->
        ok "git push" = true /\ ok "python setup.py sdist upload" = true).
Proof.
  unfold Fabfile.publish, Fabfile.validate, validate_commands.
  unfold mbind, Fabfile.Fab_bind, mret, Fabfile.Fab_ret, Fabfile.local.
  split.
  - simpl.
    destruct (ok "pep8 --exclude=migrations --ignore=E501,E225 ec2cluster");
      destruct (ok "pyflakes ec2cluster");
      destruct (ok "python -m unittest ec2cluster.tests"); simpl;
      try discriminate; intros _; (split; [reflexivity |]); not_among.
  - intros run_tests. destruct run_tests; simpl;
      repeat (match goal with |- context [ok ?c] => destruct (ok c) eqn:? end; simpl);
      try (intros _; split; reflexivity); not_among.
Qed.

Lemma publish_gated_by_validation_witness :
  let ok := fun c => negb (String.eqb c "pyflakes ec2cluster") in
  (Fabfile.publish "0.1" true ok []).1 = None
  /\ ~ In "git push" (Fabfile.publish "0.1" true ok []).2.
Proof.
  intros ok.
  destruct (publish_gated_by_validation "0.1" ok) as [Hgate _].
  destruct Hgate as (Hnone & Hpush & _); [reflexivity |].
  split; assumption.
Defined.

(** ** [process_started] on a PostgreSQL node *)

(** X30. [process_started] repeats what the prepare hooks of a
    [PostgresqlCluster] have already done. In the master role, with the
    master CNAME in the zone (the node's own included), its unforced claim
    is refused and the call raises; in the slave role, with the node's
    record in the pool, the registration is answered "it already exists"
    and the call returns normally. Either way the zone is unchanged. Before
    [initialise] has set the role, the call fails on the missing attribute. *)
Theorem process_started_on_postgresql (self : Self) (env : Env) (st : State) :
  let out := @BaseCluster.process_started PostgresqlCluster.infrastructure self env st in
  (role st = Some "master" -> dns_fault env = None ->
   binding_exists (master_cname self) (zone st) ->
   out.1 = Raise (Exception ("CNAME " +:+ master_cname self
                             +:+ " exists and force is False - not taking the CNAME"))
   /\ zone out.2 = zone st)
  /\ (forall instance_id hostname,
        role st = Some "slave" -> route53_fault env = None ->
        metadata self !! "instance-id" = Some instance_id ->
        metadata self !! "public-hostname" = Some hostname ->
        existsb (same_key (pool_entry self env instance_id hostname)) (zone st) = true ->
        out.1 = Return tt /\ zone out.2 = zone st)
  /\ (role st = None -> out = (Raise (AttributeError "role"), st)).
Proof.
  intros out. subst out.
  assert (Hrun : @BaseCluster.process_started PostgresqlCluster.infrastructure self env st
                 = match role st with
                   | Some r =>
                       if String.eqb r BaseCluster.MASTER
                       then EC2Mixin.acquire_master_cname self false env st
                       else if String.eqb r BaseCluster.SLAVE
                            then EC2Mixin.add_to_slave_cname_pool self env st
                            else (Return tt, st)
                   | None => (Raise (AttributeError "role"), st)
                   end).
  { unfold BaseCluster.process_started. run.
    destruct (role st) as [r|]; [| reflexivity].
    destruct (String.eqb r BaseCluster.MASTER); [reflexivity |].
    destruct (String.eqb r BaseCluster.SLAVE); reflexivity. }
  rewrite Hrun. clear Hrun.
  split; [| split].
  - intros Hrole Hdns Hb. rewrite Hrole. simpl.
    destruct (acquire_refused_run self env st Hdns Hb) as [lines Hrun].
    rewrite Hrun. split; reflexivity.
  - intros instance_id hostname Hrole Hr53 Hid Hhost Hex. rewrite Hrole. simpl.
    destruct (add_to_pool_on_present self env st instance_id hostname Hr53 Hid Hhost Hex)
      as (st1 & Hrun & Hz).
    rewrite Hrun. split; [reflexivity | exact Hz].
  - intros Hrole. rewrite Hrole. reflexivity.
Qed.

Lemma process_started_on_postgresql_witness :
  let st := {| zone := [Sample.master_record "instance12346.vagranttest.example.com"];
               crontab := []; files := []; log := []; stdout := [];
               processes := []; role := Some "master" |} in
  (@BaseCluster.process_started PostgresqlCluster.infrastructure Sample.self Sample.env st).1
  = Raise (Exception ("CNAME master.vagranttest.example.com"
                      +:+ " exists and force is False - not taking the CNAME")).
Proof.
  intros st.
  apply (process_started_on_postgresql Sample.self Sample.env st).
  - reflexivity.
  - reflexivity.
  - exists (Sample.master_record "instance12346.vagranttest.example.com"). simpl.
    repeat split; [left; reflexivity | discriminate].
Defined.
